(** * Agentic-AI-Practices: the delegation router and the plan-and-execute agent

    A shallow embedding of
      - [examples/multi-agent/hierarchical.py]   (module [Hierarchical])
      - [examples/planning/plan_and_execute.py]  (module [PlanAndExecute])
    followed by the properties of the two programs.

    Conventions of the embedding.
      - A Python [str] is the [string] of its UTF-8 text, as the literals
        of this file are.  A character is a byte with the continuation
        bytes that follow it: [len] and [s[:n]] count characters
        ([str_len], [take_chars]), while [in], [find] and the slice
        between two positions found work on the bytes, where they select
        what Python selects.  [str.lower] is a builtin whose Unicode
        tables are not part of the repository: it is a member of the
        class [PyStr], and every property holds for every instance.
      - A [TypedDict] is a record of optional fields: [None] is an absent
        key, so that [d.get(k)], [d.get(k, default)] and [d[k]] (which
        raises [KeyError]) are told apart.
      - Exceptions are the [Raise] results of the monad [res].
      - Console output ([print]) is not part of the model. *)

From Stdlib Require Import ZArith Ascii String List Lia.
From stdpp Require Import base option list gmap strings pretty.

Local Open Scope Z_scope.

(** ** Exceptions *)

Inductive PyError : Type :=
| KeyError (key : string)
| ZeroDivisionError
| UnboundLocalError (name : string)
| GraphRecursionError.

Inductive res (A : Type) : Type :=
| Ok (a : A)
| Raise (e : PyError).
Arguments Ok {A} a.
Arguments Raise {A} e.

(** Sequencing: the first exception raised ends the computation.
    Written [x ← m; k] with stdpp's monad notation. *)
Global Instance res_ret : MRet res := fun A a => Ok a.
Global Instance res_bind : MBind res := fun A B k m =>
  match m with
  | Ok a => k a
  | Raise e => Raise e
  end.

(** [d[key]]: the value, or [KeyError] when the key is absent. *)
Definition getitem {A : Type} (key : string) (field : option A) : res A :=
  match field with
  | Some v => Ok v
  | None => Raise (KeyError key)
  end.

(** [d.get(key, dflt)]. *)
Definition get_or {A : Type} (field : option A) (dflt : A) : A :=
  match field with
  | Some v => v
  | None => dflt
  end.

(** ** Python strings *)

Class PyStr := { lower : string -> string }.

Definition nl : string := String "010"%char "".

(** Truth value of a string: [bool(s)] is [len(s) != 0]. *)
Definition str_truthy (s : string) : bool :=
  match s with
  | EmptyString => false
  | String _ _ => true
  end.

(** Truth value of [d.get(key)] for a string field: [None] is false. *)
Definition truthy (field : option string) : bool :=
  match field with
  | Some s => str_truthy s
  | None => false
  end.

(** [needle in hay]. *)
Fixpoint contains (needle hay : string) : bool :=
  if String.prefix needle hay then true
  else match hay with
       | EmptyString => false
       | String _ rest => contains needle rest
       end.

(** The first [n] bytes of [s], and [s] without them: the two halves of
    a slice between positions that [find] and [rfind] return. *)
Fixpoint slice_to (n : nat) (s : string) : string :=
  match n, s with
  | S n', String c rest => String c (slice_to n' rest)
  | _, _ => EmptyString
  end.

Fixpoint slice_from (n : nat) (s : string) : string :=
  match n, s with
  | S n', String _ rest => slice_from n' rest
  | _, _ => s
  end.

(** A continuation byte of UTF-8, 10xxxxxx: a byte that is not the first
    of its character. *)
Definition continuation (c : ascii) : bool :=
  match c with
  | Ascii _ _ _ _ _ _ b6 b7 => b7 && negb b6
  end.


(** A string that does not begin in the middle of a character, as the
    text of a [str] does not. *)
Definition starts_char (s : string) : bool :=
  match s with
  | EmptyString => true
  | String c _ => negb (continuation c)
  end.

(** The characters of [s], each as the string of its bytes. *)
Fixpoint chars (s : string) : list string :=
  match s with
  | EmptyString => []
  | String c rest =>
      match chars rest with
      | h :: t =>
          if starts_char rest then String c "" :: h :: t else String c h :: t
      | [] => [String c ""]
      end
  end.

Definition join (l : list string) : string := foldr String.append "" l.

(** [len(s)]. *)
Definition str_len (s : string) : nat := length (chars s).

(** [s[:n]] for a literal [n >= 0]. *)
Definition take_chars (n : nat) (s : string) : string := join (take n (chars s)).



(** [s * n]. *)
Fixpoint str_mul (s : string) (n : nat) : string :=
  match n with
  | O => EmptyString
  | S n' => s +:+ str_mul s n'
  end.

(** The strings [parts] occur inside [report] in this order, one after
    the other and without overlap. *)
Fixpoint in_order (parts : list string) (report : string) : Prop :=
  match parts with
  | [] => True
  | p :: rest =>
      exists before after : string,
        report = before +:+ p +:+ after /\ in_order rest after
  end.

(** * hierarchical.py *)

Module Hierarchical.

Inductive BaseMessage : Type :=
| HumanMessage (content : string)
| AIMessage (content : string).

(** [class AgentState(TypedDict)] *)
Record AgentState : Type := mkAgentState {
  messages : option (list BaseMessage);
  task : option string;
  research_results : option string;
  analysis_results : option string;
  writing_results : option string;
  final_output : option string;
  next_agent : option string
}.

(** [state["research_results"] = v] and its siblings. *)
Definition set_research_results (v : string) (s : AgentState) : AgentState :=
  mkAgentState (messages s) (task s) (Some v) (analysis_results s)
               (writing_results s) (final_output s) (next_agent s).

Definition set_analysis_results (v : string) (s : AgentState) : AgentState :=
  mkAgentState (messages s) (task s) (research_results s) (Some v)
               (writing_results s) (final_output s) (next_agent s).

Definition set_writing_results (v : string) (s : AgentState) : AgentState :=
  mkAgentState (messages s) (task s) (research_results s) (analysis_results s)
               (Some v) (final_output s) (next_agent s).

Definition set_final_output (v : string) (s : AgentState) : AgentState :=
  mkAgentState (messages s) (task s) (research_results s) (analysis_results s)
               (writing_results s) (Some v) (next_agent s).

Definition set_next_agent (v : string) (s : AgentState) : AgentState :=
  mkAgentState (messages s) (task s) (research_results s) (analysis_results s)
               (writing_results s) (final_output s) (Some v).

(** *** Simulated tools *)

(** The dictionary of [web_search], in insertion order (the order in
    which [for key in knowledge_base] visits it). *)
Definition knowledge_base : list (string * string) :=
  [ ("artificial intelligence",
     "AI is transforming industries with machine learning, NLP, and computer vision.");
    ("climate change",
     "Climate change involves rising global temperatures and environmental impacts.");
    ("quantum computing",
     "Quantum computers use qubits to solve complex problems faster than classical computers.");
    ("blockchain",
     "Blockchain is a distributed ledger technology enabling secure, transparent transactions.") ].

Fixpoint web_search_loop `{PyStr} (kb : list (string * string)) (query : string)
  : option string :=
  match kb with
  | [] => None
  | (key, finding) :: rest =>
      if contains key (lower query)
      then Some ("Research finding: " +:+ finding)
      else web_search_loop rest query
  end.

Definition web_search `{PyStr} (query : string) : string :=
  match web_search_loop knowledge_base query with
  | Some found => found
  | None => "Research finding: General information about " +:+ query
  end.

Definition analyze_data (data : string) : string :=
  "Analysis: The data shows important patterns and trends. Key insight: "
    +:+ take_chars 100 data +:+ "...".

Definition positive_words : list string :=
  ["good"; "great"; "excellent"; "positive"; "beneficial"].

Definition sentiment_analysis `{PyStr} (text : string) : string :=
  if existsb (fun word => contains word (lower text)) positive_words
  then "Sentiment: Positive - The content has optimistic and constructive themes"
  else "Sentiment: Neutral - The content presents factual information".

Definition generate_summary (content : string) : string :=
  "Summary: " +:+ take_chars 150 content +:+ "... [Content summarized]".

(** *** Worker agents

    [research_agent.research], [analysis_agent.analyze] and
    [writing_agent.write]; the [tools] and [llm] attributes of the three
    objects are never read by these methods. *)

Definition research `{PyStr} (topic : string) : string :=
  let result := web_search topic in
  "Research completed on '" +:+ topic +:+ "': " +:+ result.

Definition analyze `{PyStr} (data : string) : string :=
  let insights := analyze_data data in
  let sentiment := sentiment_analysis data in
  "Analysis complete: " +:+ insights +:+ nl +:+ sentiment.

Definition write (content : string) : string :=
  let summary := generate_summary content in
  nl +:+ "📝 Written Report:" +:+ nl +:+ nl +:+ summary +:+ nl +:+ nl
     +:+ "This report synthesizes the research and analysis findings into a coherent narrative."
     +:+ nl
     +:+ "The content has been structured for clarity and impact." +:+ nl.

(** *** Graph nodes *)

Definition manager_node (state : AgentState) : res AgentState :=
  _task ← getitem "task" (task state);
  _messages ← getitem "messages" (messages state);
  if negb (truthy (research_results state)) then
    Ok (set_next_agent "research" state)
  else if negb (truthy (analysis_results state)) then
    Ok (set_next_agent "analysis" state)
  else if negb (truthy (writing_results state)) then
    Ok (set_next_agent "writing" state)
  else
    Ok (set_next_agent "finalize" state).

Definition research_node `{PyStr} (state : AgentState) : res AgentState :=
  task ← getitem "task" (task state);
  let result := research task in
  let state := set_research_results result state in
  let state := set_next_agent "manager" state in
  Ok state.

Definition analysis_node `{PyStr} (state : AgentState) : res AgentState :=
  research_results ← getitem "research_results" (research_results state);
  let result := analyze research_results in
  let state := set_analysis_results result state in
  let state := set_next_agent "manager" state in
  Ok state.

Definition writing_node (state : AgentState) : res AgentState :=
  research ← getitem "research_results" (research_results state);
  analysis ← getitem "analysis_results" (analysis_results state);
  let combined := research +:+ nl +:+ nl +:+ analysis in
  let result := write combined in
  let state := set_writing_results result state in
  let state := set_next_agent "manager" state in
  Ok state.

Definition rule : string := str_mul "=" 70.

(** The f-string of [finalize_node], its fields in evaluation order. *)
Definition report (task research analysis writing : string) : string :=
  nl +:+ rule +:+ nl +:+ "FINAL REPORT" +:+ nl +:+ rule +:+ nl +:+ nl
     +:+ "Task: " +:+ task +:+ nl +:+ nl
     +:+ research +:+ nl +:+ nl
     +:+ analysis +:+ nl +:+ nl
     +:+ writing +:+ nl +:+ nl
     +:+ rule +:+ nl +:+ "Report complete." +:+ nl +:+ rule +:+ nl.

Definition finalize_node (state : AgentState) : res AgentState :=
  task ← getitem "task" (task state);
  research ← getitem "research_results" (research_results state);
  analysis ← getitem "analysis_results" (analysis_results state);
  writing ← getitem "writing_results" (writing_results state);
  let final_output := report task research analysis writing in
  let state := set_final_output final_output state in
  let state := set_next_agent "end" state in
  Ok state.

(** [langgraph.graph.END], and [START] which [set_entry_point] uses. *)
Definition END : string := "__end__".
Definition START : string := "__start__".

Definition routing : gmap string string :=
  <["end" := END]>
  (<["finalize" := "finalize"]>
  (<["writing" := "writing"]>
  (<["analysis" := "analysis"]>
  (<["research" := "research"]>
  (<["manager" := "manager"]> ∅))))).

Definition route_agent (state : AgentState) : string :=
  let next_agent := get_or (next_agent state) "manager" in
  default END (routing !! next_agent).

(** *** The state graph

    [StateGraph(AgentState)] as the builder calls of
    [create_hierarchical_workflow] fill it: the nodes by name, the
    conditional edges (a routing function and the map from its answers to
    nodes) and the unconditional edges, the entry point among them. *)

Record StateGraph : Type := mkStateGraph {
  nodes : gmap string (AgentState -> res AgentState);
  branches : gmap string ((AgentState -> string) * gmap string string);
  edges : gmap string string
}.

Definition new_graph : StateGraph := mkStateGraph ∅ ∅ ∅.

Definition add_node (name : string) (action : AgentState -> res AgentState)
    (g : StateGraph) : StateGraph :=
  mkStateGraph (<[name := action]> (nodes g)) (branches g) (edges g).

Definition add_conditional_edges (source : string) (path : AgentState -> string)
    (path_map : gmap string string) (g : StateGraph) : StateGraph :=
  mkStateGraph (nodes g) (<[source := (path, path_map)]> (branches g)) (edges g).

Definition add_edge (start_key end_key : string) (g : StateGraph) : StateGraph :=
  mkStateGraph (nodes g) (branches g) (<[start_key := end_key]> (edges g)).

(** [set_entry_point(key)] is the library's [add_edge(START, key)]. *)
Definition set_entry_point (key : string) (g : StateGraph) : StateGraph :=
  add_edge START key g.

Definition create_hierarchical_workflow `{PyStr} : StateGraph :=
  let workflow := new_graph in
  let workflow := add_node "manager" manager_node workflow in
  let workflow := add_node "research" research_node workflow in
  let workflow := add_node "analysis" analysis_node workflow in
  let workflow := add_node "writing" writing_node workflow in
  let workflow := add_node "finalize" finalize_node workflow in
  let workflow := set_entry_point "manager" workflow in
  let workflow :=
    add_conditional_edges "manager" route_agent
      (<[END := END]>
      (<["finalize" := "finalize"]>
      (<["writing" := "writing"]>
      (<["analysis" := "analysis"]>
      (<["research" := "research"]>
      (<["manager" := "manager"]> ∅))))))
      workflow in
  let workflow := add_edge "research" "manager" workflow in
  let workflow := add_edge "analysis" "manager" workflow in
  let workflow := add_edge "writing" "manager" workflow in
  let workflow := add_edge "finalize" END workflow in
  workflow.

(** *** Running the compiled graph

    The graph runtime is the library's, not the repository's.  What the
    workflow relies on is modelled here: a node is called on the current
    state; the dictionary it returns is written back key by key, a plain
    key replacing the stored value and [messages], declared with the
    reducer [operator.add], being appended to the stored list; the next
    node is the answer of the routing function looked up in the path map
    when the node has conditional edges, and the target of its edge
    otherwise; the run ends at [END], and raises [GraphRecursionError]
    when it is not over after [recursion_limit] steps, the first of which
    is the one that reads the input, the others being the node calls.
    The channel of [messages] starts with the empty list, the other
    keys start absent. *)

Definition last_value {A : Type} (stored written : option A) : option A :=
  match written with
  | Some v => Some v
  | None => stored
  end.

Definition operator_add (stored written : option (list BaseMessage))
  : option (list BaseMessage) :=
  match written with
  | Some l => Some (get_or stored [] ++ l)
  | None => stored
  end.

Definition apply_writes (stored written : AgentState) : AgentState :=
  mkAgentState
    (operator_add (messages stored) (messages written))
    (last_value (task stored) (task written))
    (last_value (research_results stored) (research_results written))
    (last_value (analysis_results stored) (analysis_results written))
    (last_value (writing_results stored) (writing_results written))
    (last_value (final_output stored) (final_output written))
    (last_value (next_agent stored) (next_agent written)).

Definition successor (g : StateGraph) (node : string) (state : AgentState)
  : res string :=
  match branches g !! node with
  | Some (path, path_map) =>
      let answer := path state in
      getitem answer (path_map !! answer)
  | None => Ok (default END (edges g !! node))
  end.

(** One node call: the node, the write-back, the choice of the next node. *)
Definition superstep (g : StateGraph) (node : string) (state : AgentState)
  : res (string * AgentState) :=
  action ← getitem node (nodes g !! node);
  written ← action state;
  let state := apply_writes state written in
  next ← successor g node state;
  Ok (next, state).

(** The run from [node]; the result is the final state together with the
    log of the node calls made, each with the state it was called on. *)
Fixpoint run_from (g : StateGraph) (fuel : nat) (node : string)
    (state : AgentState) : res (list (string * AgentState) * AgentState) :=
  if String.eqb node END then Ok ([], state)
  else match fuel with
       | O => Raise GraphRecursionError
       | S fuel' =>
           step ← superstep g node state;
           rest ← run_from g fuel' step.1 step.2;
           Ok ((node, state) :: rest.1, rest.2)
       end.

Definition recursion_limit : nat := 25.

Definition empty_state : AgentState :=
  mkAgentState (Some []) None None None None None None.

Definition invoke_logged (g : StateGraph) (input : AgentState)
  : res (list (string * AgentState) * AgentState) :=
  let entry := default END (edges g !! START) in
  run_from g (recursion_limit - 1) entry (apply_writes empty_state input).

(** [app.invoke(initial_state)] *)
Definition invoke (g : StateGraph) (input : AgentState) : res AgentState :=
  run ← invoke_logged g input;
  Ok run.2.

(** The state [main] builds for a task. *)
Definition initial_state (task : string) : AgentState :=
  mkAgentState (Some [HumanMessage task]) (Some task)
               (Some "") (Some "") (Some "") (Some "") (Some "manager").

(** One turn of the loop of [main]: the report [main] prints for [task]. *)
Definition run `{PyStr} (task : string) : res string :=
  let app := create_hierarchical_workflow in
  result ← invoke app (initial_state task);
  getitem "final_output" (final_output result).

(** The configurations (next node, state) a run for [task] goes through. *)
Inductive reachable `{PyStr} (task : string) : string -> AgentState -> Prop :=
| reach_start :
    reachable task "manager" (initial_state task)
| reach_step node state next state' :
    reachable task node state ->
    superstep create_hierarchical_workflow node state = Ok (next, state') ->
    reachable task next state'.

(** *** Vocabulary of the properties *)

(** The step the router selects for a record: [manager_node], then the
    conditional edge of the graph, which asks [route_agent]. *)
Definition select_next (state : AgentState) : res string :=
  state' ← manager_node state;
  Ok (route_agent state').

(** The keys of [routing]. *)
Definition known_labels : list string :=
  ["manager"; "research"; "analysis"; "writing"; "finalize"; "end"].

(** A field the router takes for empty: absent, or the empty string. *)
Definition empty_field (field : option string) : Prop :=
  field = None \/ field = Some "".

Definition result_fields (state : AgentState) : list (option string) :=
  [ research_results state; analysis_results state;
    writing_results state; final_output state ].

(** From [old] to [new] one field that was empty has been filled, and the
    three others are what they were. *)
Definition fills_one (old new : AgentState) : Prop :=
  exists (i : nat) (before after : option string),
    result_fields old !! i = Some before /\
    result_fields new !! i = Some after /\
    truthy before = false /\ truthy after = true /\
    forall j : nat, j <> i -> result_fields new !! j = result_fields old !! j.

(** From [old] to [new] no filled field has changed. *)
Definition keeps_filled (old new : AgentState) : Prop :=
  Forall2 (fun before after => truthy before = true -> after = before)
          (result_fields old) (result_fields new).

Fixpoint adjacent {A : Type} (P : A -> A -> Prop) (l : list A) : Prop :=
  match l with
  | a :: (b :: _) as rest => P a b /\ adjacent P rest
  | _ => True
  end.

Definition is_manager (call : string * AgentState) : bool :=
  String.eqb call.1 "manager".

Definition manager_calls (log : list (string * AgentState))
  : list (string * AgentState) :=
  List.filter is_manager log.

Definition worker_calls (log : list (string * AgentState))
  : list (string * AgentState) :=
  List.filter (fun call => negb (is_manager call)) log.

(** The record at the start of each iteration of the router, and at the end. *)
Definition boundaries (log : list (string * AgentState)) (final : AgentState)
  : list AgentState :=
  map snd (manager_calls log) ++ [final].

(** The results a node reads have been recorded when it is called. *)
Definition inputs_recorded (call : string * AgentState) : Prop :=
  (call.1 = "analysis" -> truthy (research_results call.2) = true) /\
  (call.1 = "writing" ->
     truthy (research_results call.2) = true /\
     truthy (analysis_results call.2) = true) /\
  (call.1 = "finalize" ->
     truthy (research_results call.2) = true /\
     truthy (analysis_results call.2) = true /\
     truthy (writing_results call.2) = true).

(** *** The course of a run, written out

    [messages] doubles at every write-back, each node returning the list
    it was given to a channel that appends. *)
Fixpoint doubled {A : Type} (k : nat) (l : list A) : list A :=
  match k with
  | O => l
  | S k' => doubled k' l ++ doubled k' l
  end.

Definition course_state (task : string) (k : nat)
    (research analysis writing final next : string) : AgentState :=
  mkAgentState (Some (doubled k [HumanMessage task])) (Some task)
               (Some research) (Some analysis) (Some writing)
               (Some final) (Some next).

Definition course `{PyStr} (task : string) : list (string * AgentState) :=
  let R := research task in
  let A := analyze R in
  let W := write (R +:+ nl +:+ nl +:+ A) in
  [ ("manager", course_state task 0 "" "" "" "" "manager");
    ("research", course_state task 1 "" "" "" "" "research");
    ("manager", course_state task 2 R "" "" "" "manager");
    ("analysis", course_state task 3 R "" "" "" "analysis");
    ("manager", course_state task 4 R A "" "" "manager");
    ("writing", course_state task 5 R A "" "" "writing");
    ("manager", course_state task 6 R A W "" "manager");
    ("finalize", course_state task 7 R A W "" "finalize") ].

Definition outcome `{PyStr} (task : string) : AgentState :=
  let R := research task in
  let A := analyze R in
  let W := write (R +:+ nl +:+ nl +:+ A) in
  course_state task 8 R A W (report task R A W) "end".

(** The configurations of the run: each node with the record it is
    called on, and [END] with the record returned. *)
Definition configurations `{PyStr} (task : string) : list (string * AgentState) :=
  course task ++ [(END, outcome task)].

(** The value a run keeps for a result field: what the record holds when
    the router takes the field for filled, and what the worker makes
    otherwise. *)
Definition kept_or (field : option string) (made : string) : string :=
  match field with
  | Some (String c rest) => String c rest
  | _ => made
  end.

(** The node calls of a run besides the manager's, for a record whose
    result fields are filled as the three booleans say. *)
Definition pending_calls (research analysis writing : bool) : list string :=
  (if research then [] else ["research"])
    ++ (if analysis then [] else ["analysis"])
    ++ (if writing then [] else ["writing"])
    ++ ["finalize"].

End Hierarchical.

(** * plan_and_execute.py *)

Module PlanAndExecute.

(** The hosted model behind [self.llm]: [llm_invoke] answers a prompt
    with the [content] of its response and moves to its next state, so
    that two calls on one prompt may differ.  A call is taken to answer;
    a failure of the service is not in the model.  Every property below
    holds for every model. *)
Class LLM := {
  llm_state : Type;
  llm_invoke : llm_state -> string -> string * llm_state
}.

(** Python's float arithmetic, as far as [monitor_progress] uses it:
    [int / int] for a divisor other than zero, and [float * int]. *)
Class PyFloat := {
  float : Type;
  int_truediv : Z -> Z -> float;
  float_mul_int : float -> Z -> float
}.

(** [a / b] on two [int]s. *)
Definition truediv `{PyFloat} (a b : Z) : res float :=
  if b =? 0 then Raise ZeroDivisionError else Ok (int_truediv a b).

Inductive number `{PyFloat} : Type :=
| Int (n : Z)
| Float (x : float).

(** A step of a plan: a dictionary with the keys [step_number],
    [description] and [estimated_complexity], any of which may be absent
    from what the model sent.  The values have the types the planning
    prompt asks for and the fallback plan has, an [int] and two [str]:
    a step that holds a value of another JSON type under one of these
    keys is not in the model, and no property below speaks of it. *)
Module Step.
Record t : Type := mk {
  step_number : option Z;
  description : option string;
  estimated_complexity : option string
}.
End Step.

(** The dictionary [execute_step] builds, and [should_replan] reads. *)
Module Result.
Record t : Type := mk {
  step_number : option Z;
  description : option string;
  output : option string;
  status : option string;
  timestamp : option string
}.
End Result.

(** [json.loads] on a text that holds a list of such steps, or no JSON
    at all: the steps, or [None] when it raises.  What [json.loads]
    makes of a text that holds another JSON value is not in the model.
    The parser is the standard library's, and every property below
    holds for every function of this type. *)
Class Json := { json_loads : string -> option (list Step.t) }.

Record Progress `{PyFloat} : Type := mkProgress {
  total_steps : Z;
  completed_steps : Z;
  progress_percentage : number;
  remaining_steps : Z
}.
Arguments mkProgress {_} _ _ _ _.

(** [class PlanAndExecuteAgent]: the attributes of [self]. *)
Record Agent `{LLM} : Type := mkAgent {
  llm : llm_state;
  current_plan : list Step.t;
  execution_log : list Result.t
}.
Arguments mkAgent {_} _ _ _.

(** [__init__] *)
Definition init `{LLM} (llm : llm_state) : Agent := mkAgent llm [] [].

(** A method of the agent: it reads and updates [self], and returns or
    raises.  What it did to [self] before raising stays done. *)
Definition method `{LLM} (A : Type) : Type := Agent -> res A * Agent.

Global Instance method_ret `{LLM} : MRet method := fun A a self => (Ok a, self).
Global Instance method_bind `{LLM} : MBind method := fun A B k m self =>
  match m self with
  | (Ok a, self') => k a self'
  | (Raise e, self') => (Raise e, self')
  end.

Definition lift `{LLM} {A : Type} (r : res A) : method A := fun self => (r, self).

Definition get_self `{LLM} : method Agent := fun self => (Ok self, self).

(** [self.llm.invoke(prompt).content] *)
Definition self_llm_invoke `{LLM} (prompt : string) : method string :=
  fun self =>
    let answer := llm_invoke (llm self) prompt in
    (Ok answer.1, mkAgent answer.2 (current_plan self) (execution_log self)).

Definition set_current_plan `{LLM} (plan : list Step.t) : method unit :=
  fun self => (Ok tt, mkAgent (llm self) plan (execution_log self)).

(** [self.execution_log.append(result)] *)
Definition execution_log_append `{LLM} (result : Result.t) : method unit :=
  fun self =>
    (Ok tt, mkAgent (llm self) (current_plan self) (execution_log self ++ [result])).

Definition dq : string := String "034"%char "".

(** [s.find(c)] for an ASCII character [c]: the first position, counted
    in bytes, or [-1]. *)
Fixpoint find (c : ascii) (s : string) : Z :=
  match s with
  | EmptyString => -1
  | String x rest =>
      if Ascii.eqb x c then 0
      else let i := find c rest in
           if i =? -1 then -1 else i + 1
  end.

(** [s.rfind(c)] for an ASCII character [c]: the last position, counted
    in bytes, or [-1]. *)
Fixpoint rfind (c : ascii) (s : string) : Z :=
  match s with
  | EmptyString => -1
  | String x rest =>
      let i := rfind c rest in
      if i =? -1 then (if Ascii.eqb x c then 0 else -1) else i + 1
  end.

(** [s[a:b]] for two positions [0 <= a <= b] counted in bytes. *)
Definition slice (a b : Z) (s : string) : string :=
  slice_to (Z.to_nat (b - a)) (slice_from (Z.to_nat a) s).

Definition planning_prompt (task : string) : string :=
  "Create a detailed step-by-step plan to accomplish this task:" +:+ nl
    +:+ nl
    +:+ "Task: " +:+ task +:+ nl
    +:+ nl
    +:+ "Requirements:" +:+ nl
    +:+ "1. Break down the task into clear, actionable steps" +:+ nl
    +:+ "2. Each step should be specific and measurable" +:+ nl
    +:+ "3. Steps should be in logical order" +:+ nl
    +:+ "4. Include validation/checking steps" +:+ nl
    +:+ nl
    +:+ "Return the plan as a JSON list where each step has:" +:+ nl
    +:+ "- step_number: int" +:+ nl
    +:+ "- description: string" +:+ nl
    +:+ "- estimated_complexity: " +:+ dq +:+ "low" +:+ dq +:+ ", " +:+ dq +:+ "medium" +:+ dq +:+ ", or " +:+ dq +:+ "high" +:+ dq +:+ nl
    +:+ nl
    +:+ "Example format:" +:+ nl
    +:+ "[" +:+ nl
    +:+ "  {" +:+ dq +:+ "step_number" +:+ dq +:+ ": 1, " +:+ dq +:+ "description" +:+ dq +:+ ": " +:+ dq +:+ "Research topic X" +:+ dq +:+ ", " +:+ dq +:+ "estimated_complexity" +:+ dq +:+ ": " +:+ dq +:+ "medium" +:+ dq +:+ "}," +:+ nl
    +:+ "  {" +:+ dq +:+ "step_number" +:+ dq +:+ ": 2, " +:+ dq +:+ "description" +:+ dq +:+ ": " +:+ dq +:+ "Analyze findings" +:+ dq +:+ ", " +:+ dq +:+ "estimated_complexity" +:+ dq +:+ ": " +:+ dq +:+ "low" +:+ dq +:+ "}" +:+ nl
    +:+ "]" +:+ nl
    +:+ nl
    +:+ "Plan:".

Definition _create_fallback_plan (task : string) : list Step.t :=
  [ Step.mk (Some 1) (Some ("Understand: " +:+ task)) (Some "low");
    Step.mk (Some 2) (Some "Gather required information") (Some "medium");
    Step.mk (Some 3) (Some "Execute main task") (Some "high");
    Step.mk (Some 4) (Some "Verify results") (Some "low") ].

Definition create_plan `{LLM} `{Json} (task : string) : method (list Step.t) :=
  content ← self_llm_invoke (planning_prompt task);
  let start := find "[" content in
  let end_ := rfind "]" content + 1 in
  if (negb (start =? -1) && (end_ >? start))%bool then
    let plan_json := slice start end_ content in
    match json_loads plan_json with
    | Some plan =>
        _ ← set_current_plan plan;
        mret plan
    | None => mret (_create_fallback_plan task)
    end
  else
    mret (_create_fallback_plan task).

Definition execution_prompt (description estimated_complexity context : string)
  : string :=
  "Execute this step:" +:+ nl
    +:+ nl
    +:+ "Step: " +:+ description +:+ nl
    +:+ "Complexity: " +:+ estimated_complexity +:+ nl
    +:+ nl
    +:+ "Context from previous steps:" +:+ nl
    +:+ context +:+ nl
    +:+ nl
    +:+ "Provide:" +:+ nl
    +:+ "1. What you did" +:+ nl
    +:+ "2. The result" +:+ nl
    +:+ "3. Any issues encountered" +:+ nl
    +:+ "4. Whether this step is complete" +:+ nl
    +:+ nl
    +:+ "Response:".

Definition execute_step `{LLM} (step : Step.t) (context : string)
  : method Result.t :=
  _ ← lift (getitem "step_number" (Step.step_number step));
  _ ← lift (getitem "description" (Step.description step));
  description ← lift (getitem "description" (Step.description step));
  estimated_complexity ←
    lift (getitem "estimated_complexity" (Step.estimated_complexity step));
  content ← self_llm_invoke
    (execution_prompt description estimated_complexity context);
  step_number ← lift (getitem "step_number" (Step.step_number step));
  description ← lift (getitem "description" (Step.description step));
  let result :=
    Result.mk (Some step_number) (Some description) (Some content)
              (Some "completed") (Some "now") in
  _ ← execution_log_append result;
  mret result.

Definition monitor_progress `{LLM} `{PyFloat} : method Progress :=
  self ← get_self;
  let total_steps := Z.of_nat (length (current_plan self)) in
  let completed_steps := Z.of_nat (length (execution_log self)) in
  percentage ←
    (if total_steps >? 0
     then quotient ← lift (truediv completed_steps total_steps);
          mret (Float (float_mul_int quotient 100))
     else mret (Int 0));
  mret (mkProgress total_steps completed_steps percentage
                   (total_steps - completed_steps)).

Definition should_replan `{PyStr} (last_result : Result.t) : bool :=
  if contains "error" (lower (get_or (Result.output last_result) "")) then true
  else if contains "failed" (lower (get_or (Result.output last_result) "")) then true
  else false.

(** The dictionary [run] returns. *)
Module FinalResult.
Record t `{LLM} `{PyFloat} : Type := mk {
  task : string;
  plan : list Step.t;
  execution_log : list Result.t;
  progress : Progress;
  status : string
}.
Arguments mk {_ _} _ _ _ _ _.
End FinalResult.

(** The first loop of [run] prints the plan; what it reads from each step
    is kept, since [step['step_number']] and [step['description']] raise
    on a step without the key ([estimated_complexity] is read with
    [get] there). *)
Fixpoint announce_plan (plan : list Step.t) : res unit :=
  match plan with
  | [] => Ok tt
  | step :: rest =>
      _ ← getitem "step_number" (Step.step_number step);
      _ ← getitem "description" (Step.description step);
      announce_plan rest
  end.

(** The second loop of [run], from the state of its variables [context]
    and [progress] ([None] while [progress] is unbound). *)
Fixpoint execute_plan `{PyStr} `{LLM} `{PyFloat} (plan : list Step.t)
    (context : string) (progress : option Progress)
  : method (string * option Progress) :=
  match plan with
  | [] => mret (context, progress)
  | step :: rest =>
      result ← execute_step step context;
      step_number ← lift (getitem "step_number" (Step.step_number step));
      output ← lift (getitem "output" (Result.output result));
      let context :=
        context +:+ "Step " +:+ pretty step_number +:+ ": "
                +:+ take_chars 200 output +:+ "..." +:+ nl +:+ nl in
      progress ← monitor_progress;
      _ ← (if should_replan result
           then mret tt (* a notice is printed; nothing is replanned *)
           else mret tt);
      execute_plan rest context (Some progress)
  end.

Definition run `{PyStr} `{LLM} `{Json} `{PyFloat} (task : string)
  : method FinalResult.t :=
  plan ← create_plan task;
  _ ← lift (announce_plan plan);
  let context := "Task: " +:+ task +:+ nl +:+ nl in
  loop ← execute_plan plan context None;
  final_progress ← monitor_progress;
  self ← get_self;
  let final_result :=
    FinalResult.mk task plan (execution_log self) final_progress "completed" in
  _ ← lift (match loop.2 with
            | Some progress => Ok progress
            | None => Raise (UnboundLocalError "progress")
            end);
  mret final_result.

(** *** Vocabulary of the properties *)

(** [needle] occurs in [hay]. *)
Definition substring_of (needle hay : string) : Prop :=
  exists before after : string, hay = before +:+ needle +:+ after.

(** A step that carries the three keys. *)
Definition complete (step : Step.t) : Prop :=
  is_Some (Step.step_number step) /\
  is_Some (Step.description step) /\
  is_Some (Step.estimated_complexity step).

(** [result] is the entry [execute_step] logs for [step]. *)
Definition executed (step : Step.t) (result : Result.t) : Prop :=
  Result.step_number result = Step.step_number step /\
  Result.description result = Step.description step /\
  is_Some (Result.output result) /\
  Result.status result = Some "completed".

(** *** Tool functions

    The three functions the module offers the agent after the class. *)

(** The dictionary of [research_topic], in insertion order. *)
Definition knowledge : list (string * string) :=
  [ ("machine learning", "ML involves algorithms that improve through experience");
    ("neural networks",
     "Neural networks are computing systems inspired by biological neural networks");
    ("climate", "Climate patterns show significant changes in recent decades") ].

Fixpoint research_topic_loop `{PyStr} (kb : list (string * string)) (topic : string)
  : option string :=
  match kb with
  | [] => None
  | (key, finding) :: rest =>
      if contains key (lower topic) then Some finding
      else research_topic_loop rest topic
  end.

Definition research_topic `{PyStr} (topic : string) : string :=
  match research_topic_loop knowledge topic with
  | Some found => found
  | None => "Research findings on " +:+ topic
  end.

Definition analyze_data (data : string) : string :=
  "Analysis of data reveals key patterns and insights: "
    +:+ take_chars 100 data +:+ "...".

Definition generate_report (content : string) : string :=
  "Report generated with " +:+ pretty (Z.of_nat (str_len content))
    +:+ " characters of content".

(** A step the first loop of [run] can print: it carries the keys
    [step_number] and [description]. *)
Definition printable (step : Step.t) : Prop :=
  is_Some (Step.step_number step) /\ is_Some (Step.description step).

End PlanAndExecute.

(** * Instances to evaluate with *)

(** [str.lower] on ASCII text. *)
Definition ascii_lower_char (c : ascii) : ascii :=
  let n := nat_of_ascii c in
  if ((65 <=? n)%nat && (n <=? 90)%nat)%bool then ascii_of_nat (n + 32) else c.

Fixpoint ascii_lower (s : string) : string :=
  match s with
  | EmptyString => EmptyString
  | String c rest => String (ascii_lower_char c) (ascii_lower rest)
  end.

Definition ascii_PyStr : PyStr := {| lower := ascii_lower |}.

(** A model that reads its answers from a script, and answers with the
    empty string once the script is over. *)
Definition scripted_LLM : PlanAndExecute.LLM :=
  {| PlanAndExecute.llm_state := list string;
     PlanAndExecute.llm_invoke := fun script _ =>
       match script with
       | [] => ("", [])
       | answer :: rest => (answer, rest)
       end |}.

(** Exact rationals in the place of floats: a pair of a numerator and a
    denominator, not reduced.  Python rounds where this does not. *)
Definition exact_PyFloat : PlanAndExecute.PyFloat :=
  {| PlanAndExecute.float := Z * Z;
     PlanAndExecute.int_truediv := fun a b => (a, b);
     PlanAndExecute.float_mul_int := fun x n => (x.1 * n, x.2) |}.

(** [s] between double quotes, as JSON writes a string. *)
Definition quoted (s : string) : string :=
  PlanAndExecute.dq +:+ s +:+ PlanAndExecute.dq.

(** Three plans as the model may send them, and a parser that knows
    their texts and the text of the empty list, and raises on any other.
    The step of the second plan has no [estimated_complexity], the step
    of the third no [description]. *)
Definition two_steps_text : string :=
  "[{" +:+ quoted "step_number" +:+ ": 1, "
       +:+ quoted "description" +:+ ": " +:+ quoted "look" +:+ ", "
       +:+ quoted "estimated_complexity" +:+ ": " +:+ quoted "low" +:+ "}, "
  +:+ "{" +:+ quoted "step_number" +:+ ": 2, "
       +:+ quoted "description" +:+ ": " +:+ quoted "leap" +:+ ", "
       +:+ quoted "estimated_complexity" +:+ ": " +:+ quoted "high" +:+ "}]".

Definition two_steps : list PlanAndExecute.Step.t :=
  [ PlanAndExecute.Step.mk (Some 1) (Some "look") (Some "low");
    PlanAndExecute.Step.mk (Some 2) (Some "leap") (Some "high") ].

Definition short_step_text : string :=
  "[{" +:+ quoted "step_number" +:+ ": 1, "
       +:+ quoted "description" +:+ ": " +:+ quoted "look" +:+ "}]".

Definition short_step : list PlanAndExecute.Step.t :=
  [ PlanAndExecute.Step.mk (Some 1) (Some "look") None ].

Definition nameless_step_text : string :=
  "[{" +:+ quoted "step_number" +:+ ": 1, "
       +:+ quoted "estimated_complexity" +:+ ": " +:+ quoted "low" +:+ "}]".

Definition nameless_step : list PlanAndExecute.Step.t :=
  [ PlanAndExecute.Step.mk (Some 1) None (Some "low") ].

Definition sample_Json : PlanAndExecute.Json :=
  {| PlanAndExecute.json_loads := fun text =>
       if String.eqb text two_steps_text then Some two_steps
       else if String.eqb text short_step_text then Some short_step
       else if String.eqb text nameless_step_text then Some nameless_step
       else if String.eqb text "[]" then Some []
       else None |}.

(** A plan of three steps whose second step has no
    [estimated_complexity], and a parser that knows its text. *)
Definition halting_plan_text : string :=
  "[{" +:+ quoted "step_number" +:+ ": 1, "
       +:+ quoted "description" +:+ ": " +:+ quoted "look" +:+ ", "
       +:+ quoted "estimated_complexity" +:+ ": " +:+ quoted "low" +:+ "}, "
  +:+ "{" +:+ quoted "step_number" +:+ ": 2, "
       +:+ quoted "description" +:+ ": " +:+ quoted "leap" +:+ "}, "
  +:+ "{" +:+ quoted "step_number" +:+ ": 3, "
       +:+ quoted "description" +:+ ": " +:+ quoted "land" +:+ ", "
       +:+ quoted "estimated_complexity" +:+ ": " +:+ quoted "low" +:+ "}]".

Definition halting_plan : list PlanAndExecute.Step.t :=
  [ PlanAndExecute.Step.mk (Some 1) (Some "look") (Some "low");
    PlanAndExecute.Step.mk (Some 2) (Some "leap") None;
    PlanAndExecute.Step.mk (Some 3) (Some "land") (Some "low") ].

Definition halting_Json : PlanAndExecute.Json :=
  {| PlanAndExecute.json_loads := fun text =>
       if String.eqb text halting_plan_text then Some halting_plan else None |}.

(** * Properties of hierarchical.py *)

Section HierarchicalProperties.
Import Hierarchical.

(** ** Strings *)

Lemma truthy_false_iff (field : option string) :
  truthy field = false <-> empty_field field.
Proof.
  unfold empty_field. split.
  - destruct field as [[|c s]|]; simpl; intros Hf;
      [right; reflexivity | discriminate Hf | left; reflexivity].
  - intros [-> | ->]; reflexivity.
Qed.

Lemma truthy_true_iff (field : option string) :
  truthy field = true <-> ~ empty_field field.
Proof.
  rewrite <- truthy_false_iff. destruct (truthy field); split; intros Hf;
    congruence.
Qed.

Lemma truthy_Some_nonempty (s : string) : s <> "" -> truthy (Some s) = true.
Proof. destruct s; [congruence | reflexivity]. Qed.

(** ** The router *)

Lemma getitem_Some {A : Type} (key : string) (field : option A) (v : A) :
  field = Some v -> getitem key field = Ok v.
Proof. intros ->. reflexivity. Qed.

(** [manager_node] on a record with its two required keys, by the truth
    values of the three result fields. *)
Lemma manager_node_cases (state : AgentState) (t : string) (m : list BaseMessage) :
  task state = Some t -> messages state = Some m ->
  manager_node state =
    Ok (set_next_agent
          (if truthy (research_results state) then
             if truthy (analysis_results state) then
               if truthy (writing_results state) then "finalize" else "writing"
             else "analysis"
           else "research") state).
Proof.
  intros Ht Hm. unfold manager_node. rewrite Ht, Hm. simpl.
  destruct (truthy (research_results state)); simpl; [| reflexivity].
  destruct (truthy (analysis_results state)); simpl; [| reflexivity].
  destruct (truthy (writing_results state)); reflexivity.
Qed.

Lemma route_agent_set_next_agent (label : string) (state : AgentState) :
  route_agent (set_next_agent label state) = default END (routing !! label).
Proof. reflexivity. Qed.

Ltac router_case Ht Hm :=
  unfold select_next; rewrite (manager_node_cases _ _ _ Ht Hm);
  repeat match goal with
         | H : truthy _ = _ |- _ => rewrite H
         end;
  split; reflexivity.

(** C1. [manager_node], with the conditional edge that follows it, is a
    chain of tests tried in a fixed order, the first that holds deciding:
    on every record that has its task and messages, an empty
    [research_results] selects research; otherwise an empty
    [analysis_results] selects analysis; otherwise an empty
    [writing_results] selects writing; otherwise finalize is selected. *)
Theorem manager_node_priority_chain
    (state : AgentState) (t : string) (m : list BaseMessage) :
  task state = Some t -> messages state = Some m ->
  (empty_field (research_results state) ->
     manager_node state = Ok (set_next_agent "research" state) /\
     select_next state = Ok "research") /\
  (~ empty_field (research_results state) ->
   empty_field (analysis_results state) ->
     manager_node state = Ok (set_next_agent "analysis" state) /\
     select_next state = Ok "analysis") /\
  (~ empty_field (research_results state) ->
   ~ empty_field (analysis_results state) ->
   empty_field (writing_results state) ->
     manager_node state = Ok (set_next_agent "writing" state) /\
     select_next state = Ok "writing") /\
  (~ empty_field (research_results state) ->
   ~ empty_field (analysis_results state) ->
   ~ empty_field (writing_results state) ->
     manager_node state = Ok (set_next_agent "finalize" state) /\
     select_next state = Ok "finalize").
Proof.
  intros Ht Hm.
  rewrite <- !truthy_true_iff, <- !truthy_false_iff.
  repeat split; intros; router_case Ht Hm.
Qed.

Lemma manager_node_priority_chain_witness :
  manager_node (initial_state "demo") =
    Ok (set_next_agent "research" (initial_state "demo")) /\
  select_next (initial_state "demo") = Ok "research".
Proof.
  apply (manager_node_priority_chain (initial_state "demo") "demo"
           [HumanMessage "demo"]); [reflexivity | reflexivity |].
  right. reflexivity.
Defined.

(** C5. Any non-empty string in a result field counts as that step done,
    whatever the string says: once [s <> ""] is stored in
    [research_results] the router does not select research, and likewise
    for the two other fields. *)
Theorem nonempty_result_advances
    (state : AgentState) (t : string) (m : list BaseMessage) (s : string) :
  task state = Some t -> messages state = Some m -> s <> "" ->
  (exists step, select_next (set_research_results s state) = Ok step /\
                step <> "research") /\
  (exists step, select_next (set_analysis_results s state) = Ok step /\
                step <> "analysis") /\
  (exists step, select_next (set_writing_results s state) = Ok step /\
                step <> "writing").
Proof.
  intros Ht Hm Hs. apply truthy_Some_nonempty in Hs.
  unfold select_next.
  rewrite (manager_node_cases (set_research_results s state) t m Ht Hm).
  rewrite (manager_node_cases (set_analysis_results s state) t m Ht Hm).
  rewrite (manager_node_cases (set_writing_results s state) t m Ht Hm).
  cbn [research_results analysis_results writing_results
       set_research_results set_analysis_results set_writing_results].
  rewrite Hs. simpl mbind.
  split; [| split].
  - destruct (truthy (analysis_results state)), (truthy (writing_results state));
      eexists; (split; [reflexivity | discriminate]).
  - destruct (truthy (research_results state)), (truthy (writing_results state));
      eexists; (split; [reflexivity | discriminate]).
  - destruct (truthy (research_results state)), (truthy (analysis_results state));
      eexists; (split; [reflexivity | discriminate]).
Qed.

Lemma nonempty_result_advances_witness :
  (exists step,
     select_next (set_research_results "Error: search failed" (initial_state "demo"))
       = Ok step /\ step <> "research") /\
  (exists step,
     select_next (set_analysis_results "Error: search failed" (initial_state "demo"))
       = Ok step /\ step <> "analysis") /\
  (exists step,
     select_next (set_writing_results "Error: search failed" (initial_state "demo"))
       = Ok step /\ step <> "writing").
Proof.
  apply (nonempty_result_advances (initial_state "demo") "demo"
           [HumanMessage "demo"] "Error: search failed");
    [reflexivity | reflexivity | discriminate].
Defined.

(** C6, as the code has it. [manager_node] is idempotent: called again on
    the record it returned, it returns that record and the router selects
    the same step. It is not free of effects on the record: it overwrites
    [next_agent] with the step selected, and leaves every other field as
    it was. *)
Theorem manager_node_idempotent (state state' : AgentState) :
  manager_node state = Ok state' ->
  manager_node state' = Ok state' /\
  select_next state' = select_next state /\
  next_agent state' = Some (route_agent state') /\
  messages state' = messages state /\
  task state' = task state /\
  research_results state' = research_results state /\
  analysis_results state' = analysis_results state /\
  writing_results state' = writing_results state /\
  final_output state' = final_output state.
Proof.
  unfold select_next, manager_node.
  destruct (task state) as [t|] eqn:Ht; [| discriminate].
  destruct (messages state) as [m|] eqn:Hm; [| discriminate].
  simpl.
  destruct (truthy (research_results state)) eqn:Hr;
    [destruct (truthy (analysis_results state)) eqn:Ha;
     [destruct (truthy (writing_results state)) eqn:Hw |] |];
    simpl; intros [= <-]; simpl;
    rewrite Ht, Hm; simpl; rewrite ?Hr, ?Ha, ?Hw; simpl;
    repeat split; reflexivity.
Qed.

Lemma manager_node_idempotent_witness :
  manager_node (set_next_agent "research" (initial_state "demo")) =
    Ok (set_next_agent "research" (initial_state "demo")) /\
  select_next (set_next_agent "research" (initial_state "demo")) =
    select_next (initial_state "demo").
Proof.
  destruct (manager_node_idempotent (initial_state "demo")
              (set_next_agent "research" (initial_state "demo")) eq_refl)
    as (Hagain & Hsame & _).
  split; [exact Hagain | exact Hsame].
Defined.

(** C6, as stated, fails: the call does not leave the record unchanged.
    On the record [main] builds, whose [next_agent] is "manager",
    [manager_node] returns a record whose [next_agent] is "research". *)
Lemma manager_node_writes_next_agent :
  exists state' : AgentState,
    manager_node (initial_state "demo") = Ok state' /\
    next_agent (initial_state "demo") = Some "manager" /\
    next_agent state' = Some "research" /\
    state' <> initial_state "demo".
Proof.
  exists (set_next_agent "research" (initial_state "demo")).
  repeat split; discriminate.
Qed.

(** ** Routing *)

Lemma routing_unknown (label : string) :
  label ∉ known_labels -> routing !! label = None.
Proof.
  intros Hout. unfold routing.
  rewrite !lookup_insert_ne, lookup_empty; [reflexivity | ..];
    intros <-; apply Hout; unfold known_labels; set_solver.
Qed.

(** C8. [route_agent] answers on every record. A label outside the six
    known ones is not a key of [routing], so that [routing[label]] would
    raise [KeyError], and [route_agent], which looks it up with a default,
    answers [END]; a record without the key [next_agent] is routed to the
    manager. *)
Theorem route_agent_total (state : AgentState) :
  (next_agent state = None -> route_agent state = "manager") /\
  (forall label : string,
     next_agent state = Some label -> label ∉ known_labels ->
     getitem label (routing !! label) = Raise (KeyError label) /\
     route_agent state = END).
Proof.
  unfold route_agent. split.
  - intros ->. reflexivity.
  - intros label -> Hout. simpl.
    rewrite (routing_unknown label Hout). split; reflexivity.
Qed.

Lemma route_agent_total_witness :
  route_agent empty_state = "manager" /\
  route_agent (set_next_agent "critic" (initial_state "demo")) = END.
Proof.
  split.
  - apply (route_agent_total empty_state). reflexivity.
  - apply (route_agent_total (set_next_agent "critic" (initial_state "demo"))
             ) with (label := "critic"); [reflexivity |].
    unfold known_labels. intros Hin.
    repeat (apply elem_of_cons in Hin as [Heq | Hin]; [discriminate Heq |]).
    apply elem_of_nil in Hin. exact Hin.
Defined.

(** ** The nodes *)

Lemma superstep_inv `{PyStr} (node : string) (state : AgentState)
    (next : string) (state' : AgentState) :
  superstep create_hierarchical_workflow node state = Ok (next, state') ->
  exists action written,
    nodes create_hierarchical_workflow !! node = Some action /\
    action state = Ok written /\
    state' = apply_writes state written /\
    successor create_hierarchical_workflow node state' = Ok next.
Proof.
  unfold superstep. intros Hstep.
  destruct (nodes create_hierarchical_workflow !! node) as [action|];
    [| discriminate Hstep].
  simpl in Hstep.
  destruct (action state) as [written|] eqn:Haction; [| discriminate Hstep].
  simpl in Hstep.
  destruct (successor create_hierarchical_workflow node (apply_writes state written))
    as [next'|] eqn:Hnext; [| discriminate Hstep].
  simpl in Hstep. injection Hstep as <- <-.
  exists action, written. repeat split; assumption.
Qed.

Lemma next_agent_apply_writes (state written : AgentState) (label : string) :
  next_agent written = Some label ->
  next_agent (apply_writes state written) = Some label.
Proof. intros Hw. simpl. rewrite Hw. reflexivity. Qed.

Lemma research_node_inv `{PyStr} (state state' : AgentState) :
  research_node state = Ok state' ->
  exists t, task state = Some t /\
    state' = set_next_agent "manager" (set_research_results (research t) state).
Proof.
  unfold research_node. destruct (task state) as [t|]; [| discriminate].
  simpl. intros [= <-]. exists t. split; reflexivity.
Qed.

Lemma analysis_node_inv `{PyStr} (state state' : AgentState) :
  analysis_node state = Ok state' ->
  exists r, research_results state = Some r /\
    state' = set_next_agent "manager" (set_analysis_results (analyze r) state).
Proof.
  unfold analysis_node. destruct (research_results state) as [r|]; [| discriminate].
  simpl. intros [= <-]. exists r. split; reflexivity.
Qed.

Lemma writing_node_inv (state state' : AgentState) :
  writing_node state = Ok state' ->
  exists r a, research_results state = Some r /\ analysis_results state = Some a /\
    state' = set_next_agent "manager"
               (set_writing_results (write (r +:+ nl +:+ nl +:+ a)) state).
Proof.
  unfold writing_node. destruct (research_results state) as [r|]; [| discriminate].
  destruct (analysis_results state) as [a|]; [| discriminate].
  simpl. intros [= <-]. exists r, a. repeat split; reflexivity.
Qed.

Lemma finalize_node_inv (state state' : AgentState) :
  finalize_node state = Ok state' ->
  exists t r a w,
    task state = Some t /\ research_results state = Some r /\
    analysis_results state = Some a /\ writing_results state = Some w /\
    state' = set_next_agent "end" (set_final_output (report t r a w) state).
Proof.
  unfold finalize_node. destruct (task state) as [t|]; [| discriminate].
  destruct (research_results state) as [r|]; [| discriminate].
  destruct (analysis_results state) as [a|]; [| discriminate].
  destruct (writing_results state) as [w|]; [| discriminate].
  simpl. intros [= <-]. exists t, r, a, w. repeat split; reflexivity.
Qed.

(** C9. Each worker node returns with [next_agent] set to "manager" and
    [finalize_node] with [next_agent] set to "end"; each of them does
    return when the keys it reads are present; and in the graph the node
    called after a worker is the manager, the run ending after
    finalize. *)
Theorem nodes_hand_back_control `{PyStr} (state : AgentState) :
  (forall state', research_node state = Ok state' ->
                  next_agent state' = Some "manager") /\
  (forall state', analysis_node state = Ok state' ->
                  next_agent state' = Some "manager") /\
  (forall state', writing_node state = Ok state' ->
                  next_agent state' = Some "manager") /\
  (forall state', finalize_node state = Ok state' ->
                  next_agent state' = Some "end") /\
  (forall t, task state = Some t ->
     exists state', research_node state = Ok state') /\
  (forall r, research_results state = Some r ->
     exists state', analysis_node state = Ok state') /\
  (forall r a, research_results state = Some r -> analysis_results state = Some a ->
     exists state', writing_node state = Ok state') /\
  (forall t r a w, task state = Some t -> research_results state = Some r ->
     analysis_results state = Some a -> writing_results state = Some w ->
     exists state', finalize_node state = Ok state') /\
  (forall node next state',
     node ∈ ["research"; "analysis"; "writing"] ->
     superstep create_hierarchical_workflow node state = Ok (next, state') ->
     next = "manager" /\ next_agent state' = Some "manager") /\
  (forall next state',
     superstep create_hierarchical_workflow "finalize" state = Ok (next, state') ->
     next = END /\ next_agent state' = Some "end").
Proof.
  repeat apply conj.
  - intros state' (t & _ & ->)%research_node_inv. reflexivity.
  - intros state' (r & _ & ->)%analysis_node_inv. reflexivity.
  - intros state' (r & a & _ & _ & ->)%writing_node_inv. reflexivity.
  - intros state' (t & r & a & w & _ & _ & _ & _ & ->)%finalize_node_inv.
    reflexivity.
  - intros t Ht. unfold research_node. rewrite Ht. eexists. reflexivity.
  - intros r Hr. unfold analysis_node. rewrite Hr. eexists. reflexivity.
  - intros r a Hr Ha. unfold writing_node. rewrite Hr, Ha. eexists. reflexivity.
  - intros t r a w Ht Hr Ha Hw. unfold finalize_node.
    rewrite Ht, Hr, Ha, Hw. eexists. reflexivity.
  - intros node next state' Hnode
      (action & written & Haction & Hwritten & -> & Hnext)%superstep_inv.
    repeat (apply elem_of_cons in Hnode as [-> | Hnode]);
      [| | | apply elem_of_nil in Hnode; contradiction].
    + injection Haction as <-. injection Hnext as <-.
      apply research_node_inv in Hwritten as (t & _ & ->).
      split; reflexivity.
    + injection Haction as <-. injection Hnext as <-.
      apply analysis_node_inv in Hwritten as (r & _ & ->).
      split; reflexivity.
    + injection Haction as <-. injection Hnext as <-.
      apply writing_node_inv in Hwritten as (r & a & _ & _ & ->).
      split; reflexivity.
  - intros next state'
      (action & written & Haction & Hwritten & -> & Hnext)%superstep_inv.
    injection Haction as <-. injection Hnext as <-.
    apply finalize_node_inv in Hwritten as (t & r & a & w & _ & _ & _ & _ & ->).
    split; reflexivity.
Qed.

Lemma nodes_hand_back_control_witness :
  exists state',
    @research_node ascii_PyStr (initial_state "demo") = Ok state' /\
    next_agent state' = Some "manager".
Proof.
  destruct (@nodes_hand_back_control ascii_PyStr (initial_state "demo"))
    as (Hnext & _ & _ & _ & Hreturns & _).
  destruct (Hreturns "demo" eq_refl) as [state' Hstate'].
  exists state'. split; [exact Hstate' | exact (Hnext state' Hstate')].
Defined.

(** ** The final report *)

Lemma report_layout :
  exists header sep footer : string,
    forall t r a w : string,
      report t r a w =
        header +:+ t +:+ sep +:+ r +:+ sep +:+ a +:+ sep +:+ w +:+ footer.
Proof.
  exists (nl +:+ rule +:+ nl +:+ "FINAL REPORT" +:+ nl +:+ rule +:+ nl +:+ nl
             +:+ "Task: "),
         (nl +:+ nl),
         (nl +:+ nl +:+ rule +:+ nl +:+ "Report complete." +:+ nl +:+ rule +:+ nl).
  intros t r a w. reflexivity.
Qed.

Lemma report_in_order (t r a w : string) :
  in_order [t; r; a; w] (report t r a w).
Proof.
  destruct report_layout as (header & sep & footer & ->).
  exists header, (sep +:+ r +:+ sep +:+ a +:+ sep +:+ w +:+ footer).
  split; [reflexivity |].
  exists sep, (sep +:+ a +:+ sep +:+ w +:+ footer). split; [reflexivity |].
  exists sep, (sep +:+ w +:+ footer). split; [reflexivity |].
  exists sep, footer. split; [reflexivity | exact I].
Qed.

(** C4. The report holds the task and the three results as they are, in
    the order task, research, analysis, writing, between fixed pieces of
    text: [finalize_node] stores it in [final_output] for whatever the
    four fields hold, and [run] returns it for every task, with the
    results of the three workers. *)
Theorem final_report_contents `{PyStr} :
  (exists header sep footer : string,
     forall t r a w : string,
       report t r a w =
         header +:+ t +:+ sep +:+ r +:+ sep +:+ a +:+ sep +:+ w +:+ footer) /\
  (forall (state : AgentState) (t r a w : string),
     task state = Some t -> research_results state = Some r ->
     analysis_results state = Some a -> writing_results state = Some w ->
     exists state',
       finalize_node state = Ok state' /\
       final_output state' = Some (report t r a w) /\
       in_order [t; r; a; w] (report t r a w)) /\
  (forall t : string,
     let R := research t in
     let A := analyze R in
     let W := write (R +:+ nl +:+ nl +:+ A) in
     run t = Ok (report t R A W) /\ in_order [t; R; A; W] (report t R A W)).
Proof.
  split; [exact report_layout | split].
  - intros state t r a w Ht Hr Ha Hw.
    unfold finalize_node. rewrite Ht, Hr, Ha, Hw. simpl mbind.
    eexists. split; [reflexivity |]. split; [reflexivity |].
    apply report_in_order.
  - intros t R A W. split; [reflexivity | apply report_in_order].
Qed.

Lemma final_report_contents_witness :
  exists state',
    finalize_node (course_state "demo" 7 "R" "A" "W" "" "finalize") = Ok state' /\
    final_output state' = Some (report "demo" "R" "A" "W") /\
    in_order ["demo"; "R"; "A"; "W"] (report "demo" "R" "A" "W").
Proof.
  destruct (@final_report_contents ascii_PyStr) as (_ & Hfinalize & _).
  apply (Hfinalize (course_state "demo" 7 "R" "A" "W" "" "finalize"));
    reflexivity.
Defined.

(** ** The run *)

Lemma invoke_logged_course `{PyStr} (t : string) :
  invoke_logged create_hierarchical_workflow (initial_state t) =
    Ok (course t, outcome t).
Proof. reflexivity. Qed.

Lemma run_from_enough_fuel `{PyStr} (t : string) (fuel : nat) :
  (8 <= fuel)%nat ->
  run_from create_hierarchical_workflow fuel "manager" (initial_state t) =
    Ok (course t, outcome t).
Proof.
  intros Hfuel.
  do 8 (destruct fuel as [|fuel]; [lia |]).
  destruct fuel; reflexivity.
Qed.

Lemma run_from_short_of_fuel `{PyStr} (t : string) (fuel : nat) :
  (fuel < 8)%nat ->
  run_from create_hierarchical_workflow fuel "manager" (initial_state t) =
    Raise GraphRecursionError.
Proof.
  intros Hfuel.
  do 8 (destruct fuel as [|fuel]; [reflexivity |]).
  lia.
Qed.

Lemma fills_one_at (i : nat) (old new : AgentState) (before after : option string) :
  (i < 4)%nat ->
  result_fields old !! i = Some before ->
  result_fields new !! i = Some after ->
  truthy before = false -> truthy after = true ->
  (forall j : nat, (j < 4)%nat -> j <> i ->
     result_fields new !! j = result_fields old !! j) ->
  fills_one old new.
Proof.
  intros Hi Hold Hnew Hbefore Hafter Hothers.
  exists i, before, after. repeat split; try assumption.
  intros j Hj. destruct (Nat.lt_ge_cases j 4) as [Hlt | Hge].
  - apply Hothers; assumption.
  - rewrite !lookup_ge_None_2; [reflexivity | exact Hge | exact Hge].
Qed.

Ltac fills_at i :=
  eapply (fills_one_at i);
    [lia | reflexivity | reflexivity | reflexivity | reflexivity |];
    let j := fresh "j" in
    intros j ? ?;
    do 4 (destruct j as [|j]; [first [reflexivity | congruence] |]);
    lia.

(** C2. For every task the run makes four calls besides the manager's,
    research, analysis, writing and finalize in this order, each after the
    manager selected it: four iterations, eight node calls, no more and
    no fewer. A node is called when the results it reads are recorded;
    each iteration fills one field that was empty and changes no other,
    and no call changes a filled field. The run ends within the limit of
    the runtime, and with any allowance of at least eight calls. *)
Theorem run_four_invocations `{PyStr} (t : string) :
  exists (log : list (string * AgentState)) (final : AgentState),
    invoke_logged create_hierarchical_workflow (initial_state t) = Ok (log, final) /\
    map fst log =
      ["manager"; "research"; "manager"; "analysis";
       "manager"; "writing"; "manager"; "finalize"] /\
    map fst (worker_calls log) = ["research"; "analysis"; "writing"; "finalize"] /\
    length (manager_calls log) = 4%nat /\
    Forall inputs_recorded log /\
    adjacent fills_one (boundaries log final) /\
    adjacent keeps_filled (map snd log ++ [final]) /\
    (forall fuel : nat, (8 <= fuel)%nat ->
       run_from create_hierarchical_workflow fuel "manager" (initial_state t) =
         Ok (log, final)) /\
    (forall fuel : nat, (fuel < 8)%nat ->
       run_from create_hierarchical_workflow fuel "manager" (initial_state t) =
         Raise GraphRecursionError).
Proof.
  exists (course t), (outcome t).
  split; [apply invoke_logged_course |].
  split; [reflexivity |]. split; [reflexivity |]. split; [reflexivity |].
  split.
  { unfold course. repeat apply Forall_cons_2; try apply Forall_nil_2;
      unfold inputs_recorded; simpl;
      repeat split; first [discriminate | reflexivity]. }
  split.
  { cbn [boundaries manager_calls course List.filter is_manager fst snd
         String.eqb Ascii.eqb Bool.eqb map app adjacent].
    split; [fills_at 0%nat |]. split; [fills_at 1%nat |].
    split; [fills_at 2%nat |]. split; [fills_at 3%nat | exact I]. }
  split.
  { unfold course, outcome, keeps_filled. simpl.
    repeat split;
      repeat apply Forall2_cons_2; try apply Forall2_nil_2;
      first [reflexivity | discriminate]. }
  split; [apply run_from_enough_fuel | apply run_from_short_of_fuel].
Qed.

Lemma run_four_invocations_witness :
  run_from (@create_hierarchical_workflow ascii_PyStr) 8 "manager"
    (initial_state "demo") =
  invoke_logged (@create_hierarchical_workflow ascii_PyStr) (initial_state "demo").
Proof.
  destruct (@run_four_invocations ascii_PyStr "demo")
    as (log & final & -> & _ & _ & _ & _ & _ & _ & Henough & _).
  apply Henough. lia.
Defined.

(** ** Reachable records *)

Lemma superstep_configurations `{PyStr} (t : string) (i : nat)
    (c c' : string * AgentState) :
  configurations t !! i = Some c ->
  configurations t !! S i = Some c' ->
  superstep create_hierarchical_workflow c.1 c.2 = Ok c'.
Proof.
  intros Hc Hc'.
  do 8 (destruct i as [|i];
        [injection Hc as <-; injection Hc' as <-; reflexivity |]).
  destruct i; discriminate Hc'.
Qed.

Lemma superstep_END `{PyStr} (state : AgentState) :
  superstep create_hierarchical_workflow END state = Raise (KeyError END).
Proof. reflexivity. Qed.

(** The run goes through the nine configurations written out, and no other. *)
Lemma reachable_configurations `{PyStr} (t : string) (node : string)
    (state : AgentState) :
  reachable t node state ->
  exists i : nat, configurations t !! i = Some (node, state).
Proof.
  induction 1 as [| node state next state' _ [i Hi] Hstep].
  - exists 0%nat. reflexivity.
  - destruct (configurations t !! S i) as [c'|] eqn:Hnext.
    + exists (S i).
      pose proof (superstep_configurations t i _ _ Hi Hnext) as Hdet.
      cbn [fst snd] in Hdet. rewrite Hdet in Hstep.
      injection Hstep as ->. exact Hnext.
    + assert (i = 8%nat) as ->.
      { apply lookup_lt_Some in Hi. apply lookup_ge_None_1 in Hnext.
        simpl in Hi, Hnext. lia. }
      injection Hi as <- <-. rewrite superstep_END in Hstep.
      discriminate Hstep.
Qed.

Lemma configurations_reachable `{PyStr} (t : string) (i : nat)
    (c : string * AgentState) :
  configurations t !! i = Some c -> reachable t c.1 c.2.
Proof.
  revert c. induction i as [|i IH]; intros c Hc.
  - injection Hc as <-. apply reach_start.
  - destruct (configurations t !! i) as [c0|] eqn:Hc0.
    + apply (reach_step t c0.1 c0.2 c.1 c.2 (IH c0 eq_refl)).
      rewrite (superstep_configurations t i c0 c Hc0 Hc).
      destruct c; reflexivity.
    + apply lookup_ge_None_1 in Hc0. apply lookup_lt_Some in Hc. lia.
Qed.

Ltac unchanged_or_own :=
  let Hchanged := fresh "Hchanged" in
  intros Hchanged;
  first [ exfalso; apply Hchanged; reflexivity
        | split; reflexivity ].

(** C3. In every record a run reaches, the result fields are filled in
    the order research, analysis, writing; a filled field holds what its
    worker returned, the analysis being made from the research result and
    the writing from the research and analysis results; and a step of the
    run changes a result field only when it is the step of the worker of
    that field and the field is empty: a field is set by one worker, and
    once set it is not written again. Every task's run does reach a
    record with the three fields filled. *)
Theorem results_filled_in_order `{PyStr} (t : string) (node : string)
    (state : AgentState) :
  reachable t node state ->
  (truthy (writing_results state) = true ->
   truthy (analysis_results state) = true) /\
  (truthy (analysis_results state) = true ->
   truthy (research_results state) = true) /\
  (truthy (research_results state) = true ->
   research_results state = Some (research t)) /\
  (truthy (analysis_results state) = true ->
   exists r, research_results state = Some r /\
             analysis_results state = Some (analyze r)) /\
  (truthy (writing_results state) = true ->
   exists r a, research_results state = Some r /\
               analysis_results state = Some a /\
               writing_results state = Some (write (r +:+ nl +:+ nl +:+ a))) /\
  (forall next state',
     superstep create_hierarchical_workflow node state = Ok (next, state') ->
     (research_results state' <> research_results state ->
      node = "research" /\ truthy (research_results state) = false) /\
     (analysis_results state' <> analysis_results state ->
      node = "analysis" /\ truthy (analysis_results state) = false) /\
     (writing_results state' <> writing_results state ->
      node = "writing" /\ truthy (writing_results state) = false)) /\
  (exists final,
     reachable t END final /\
     truthy (research_results final) = true /\
     truthy (analysis_results final) = true /\
     truthy (writing_results final) = true).
Proof.
  intros [i Hi]%reachable_configurations.
  repeat apply conj.
  1-5: do 9 (destruct i as [|i];
             [injection Hi as <- <-; simpl; intros Hfilled;
              first [discriminate Hfilled | reflexivity
                    | eexists; split; reflexivity
                    | eexists; eexists; repeat split; reflexivity] |]);
       discriminate Hi.
  - intros next state' Hstep.
    destruct (configurations t !! S i) as [c'|] eqn:Hnext.
    + pose proof (superstep_configurations t i _ _ Hi Hnext) as Hdet.
      cbn [fst snd] in Hdet. rewrite Hdet in Hstep.
      injection Hstep as ->.
      do 8 (destruct i as [|i];
            [injection Hi as <- <-; injection Hnext as <- <-;
             repeat apply conj; unchanged_or_own |]).
      destruct i; discriminate Hnext.
    + assert (i = 8%nat) as ->.
      { apply lookup_lt_Some in Hi. apply lookup_ge_None_1 in Hnext.
        simpl in Hi, Hnext. lia. }
      injection Hi as <- <-. rewrite superstep_END in Hstep.
      discriminate Hstep.
  - exists (outcome t). split.
    + apply (configurations_reachable t 8 (END, outcome t)). reflexivity.
    + repeat split; reflexivity.
Qed.

Lemma results_filled_in_order_witness :
  research_results (@outcome ascii_PyStr "demo") =
    Some (@research ascii_PyStr "demo").
Proof.
  assert (@reachable ascii_PyStr "demo" END (@outcome ascii_PyStr "demo"))
    as Hreach.
  { apply (@configurations_reachable ascii_PyStr "demo" 8
             (END, @outcome ascii_PyStr "demo")). reflexivity. }
  destruct (@results_filled_in_order ascii_PyStr "demo" END
              (@outcome ascii_PyStr "demo") Hreach)
    as (_ & _ & Hresearch & _).
  apply Hresearch. reflexivity.
Defined.

End HierarchicalProperties.

(** * Properties of plan_and_execute.py *)

Section PlanAndExecuteProperties.
Import PlanAndExecute.

(** ** Substrings *)

Lemma prefix_spec (needle hay : string) :
  String.prefix needle hay = true <-> exists after, hay = needle +:+ after.
Proof.
  revert hay. induction needle as [|c needle IH]; intros hay.
  - split; [intros _; exists hay; reflexivity |].
    intros _. destruct hay; reflexivity.
  - destruct hay as [|d hay]; simpl.
    + split; [discriminate | intros [after Hafter]; discriminate Hafter].
    + destruct (ascii_dec c d) as [<- | Hne].
      * rewrite IH. split; intros [after Hafter]; exists after.
        -- rewrite Hafter. reflexivity.
        -- injection Hafter as ->. reflexivity.
      * split; [discriminate |].
        intros [after Hafter]. injection Hafter as <- _. contradiction.
Qed.

Lemma contains_spec (needle hay : string) :
  contains needle hay = true <-> substring_of needle hay.
Proof.
  unfold substring_of. induction hay as [|d hay IH].
  - cbn [contains]. destruct (String.prefix needle "") eqn:Hp.
    + apply prefix_spec in Hp as [after Hafter].
      split; [intros _; exists "", after; exact Hafter | reflexivity].
    + split; [discriminate |].
      intros (before & after & Heq).
      destruct before as [|b before]; [| discriminate Heq].
      assert (String.prefix needle "" = true) as Hp'
        by (apply prefix_spec; exists after; exact Heq).
      congruence.
  - cbn [contains]. destruct (String.prefix needle (String d hay)) eqn:Hp.
    + apply prefix_spec in Hp as [after Hafter].
      split; [intros _; exists "", after; exact Hafter | reflexivity].
    + rewrite IH. split.
      * intros (before & after & ->). exists (String d before), after. reflexivity.
      * intros (before & after & Heq). destruct before as [|b before].
        -- assert (String.prefix needle (String d hay) = true) as Hp'
             by (apply prefix_spec; exists after; exact Heq).
           congruence.
        -- injection Heq as _ ->. exists before, after. reflexivity.
Qed.

Lemma should_replan_spec `{PyStr} (last_result : Result.t) :
  should_replan last_result = true <->
  substring_of "error" (lower (get_or (Result.output last_result) "")) \/
  substring_of "failed" (lower (get_or (Result.output last_result) "")).
Proof.
  unfold should_replan. rewrite <- !contains_spec.
  destruct (contains "error" _); [tauto |].
  destruct (contains "failed" _); intuition congruence.
Qed.

(** With [str.lower] on ASCII text, the test of [should_replan] is a
    search for a word that reads "error" or "failed" once lowered. *)

Lemma ascii_lower_app (a b : string) :
  ascii_lower (a +:+ b) = ascii_lower a +:+ ascii_lower b.
Proof.
  induction a as [|c a IH]; [reflexivity |].
  simpl. rewrite IH. reflexivity.
Qed.

Lemma ascii_lower_split (s x y : string) :
  ascii_lower s = x +:+ y ->
  exists s1 s2, s = s1 +:+ s2 /\ ascii_lower s1 = x /\ ascii_lower s2 = y.
Proof.
  revert s. induction x as [|c x IH]; intros s Hs.
  - exists "", s. repeat split; assumption.
  - destruct s as [|d s]; [discriminate Hs |].
    simpl in Hs. injection Hs as Hd Hs.
    destruct (IH s Hs) as (s1 & s2 & -> & Hs1 & Hs2).
    exists (String d s1), s2. simpl.
    rewrite Hd, Hs1. split; [reflexivity |]. split; [reflexivity | exact Hs2].
Qed.

Lemma substring_of_ascii_lower (needle hay : string) :
  substring_of needle (ascii_lower hay) <->
  exists word, ascii_lower word = needle /\ substring_of word hay.
Proof.
  unfold substring_of. split.
  - intros (before & after & Hhay).
    apply ascii_lower_split in Hhay as (s1 & s23 & -> & _ & Hrest).
    apply ascii_lower_split in Hrest as (s2 & s3 & -> & Hword & _).
    exists s2. split; [exact Hword |]. exists s1, s3. reflexivity.
  - intros (word & <- & before & after & ->).
    exists (ascii_lower before), (ascii_lower after).
    rewrite !ascii_lower_app. reflexivity.
Qed.

Lemma should_replan_ascii (last_result : Result.t) :
  @should_replan ascii_PyStr last_result = true <->
  exists word,
    (ascii_lower word = "error" \/ ascii_lower word = "failed") /\
    substring_of word (get_or (Result.output last_result) "").
Proof.
  rewrite (@should_replan_spec ascii_PyStr). cbn [lower ascii_PyStr].
  rewrite !substring_of_ascii_lower. split.
  - intros [(word & Hword & Hin) | (word & Hword & Hin)];
      exists word; (split; [| exact Hin]); [left | right]; exact Hword.
  - intros (word & [Hword | Hword] & Hin); [left | right];
      exists word; split; assumption.
Qed.

(** ** Methods *)

Lemma bind_Ok `{LLM} {A B : Type} (m : method A) (k : A -> method B)
    (self self' : Agent) (a : A) :
  m self = (Ok a, self') -> (m ≫= k) self = k a self'.
Proof. unfold mbind, method_bind. intros ->. reflexivity. Qed.

Lemma bind_Raise `{LLM} {A B : Type} (m : method A) (k : A -> method B)
    (self self' : Agent) (e : PyError) :
  m self = (Raise e, self') -> (m ≫= k) self = (Raise e, self').
Proof. unfold mbind, method_bind. intros ->. reflexivity. Qed.

Lemma truediv_nonzero `{PyFloat} (a b : Z) :
  b <> 0 -> truediv a b = Ok (int_truediv a b).
Proof.
  intros Hb. unfold truediv. destruct (Z.eqb_spec b 0); [contradiction | reflexivity].
Qed.

(** C10. [monitor_progress] returns on every agent, and leaves it as it
    was: the report holds the number of steps of the current plan, the
    number of entries of the execution log and their difference; the
    percentage is the integer 0 when the plan has no step, the division
    then not being made, and [completed / total * 100] otherwise, a
    division that does not raise. *)
Theorem monitor_progress_total `{LLM} `{PyFloat} (self : Agent) :
  let total := Z.of_nat (length (current_plan self)) in
  let completed := Z.of_nat (length (execution_log self)) in
  exists progress : Progress,
    monitor_progress self = (Ok progress, self) /\
    total_steps progress = total /\
    completed_steps progress = completed /\
    remaining_steps progress = total - completed /\
    (current_plan self = [] -> progress_percentage progress = Int 0) /\
    (current_plan self <> [] ->
     truediv completed total = Ok (int_truediv completed total) /\
     progress_percentage progress =
       Float (float_mul_int (int_truediv completed total) 100)).
Proof.
  intros total completed. unfold monitor_progress.
  rewrite (bind_Ok get_self _ self self self eq_refl).
  fold total completed.
  destruct (current_plan self) as [|step plan] eqn:Hplan.
  - eexists. split; [reflexivity |].
    do 3 (split; [reflexivity |]).
    split; [reflexivity | intros Hne; contradiction].
  - assert (total > 0) as Hpos by (subst total; simpl length; lia).
    assert (total <> 0) as Hnz by lia.
    destruct (Z.gtb_spec total 0) as [_ | Hle]; [| lia].
    unfold lift. cbn [mbind method_bind mret method_ret].
    rewrite (truediv_nonzero completed total Hnz).
    eexists. split; [reflexivity |].
    do 3 (split; [reflexivity |]).
    split; [discriminate |].
    intros _. split; reflexivity.
Qed.

Lemma monitor_progress_total_witness :
  exists progress,
    @monitor_progress scripted_LLM exact_PyFloat (@init scripted_LLM []) =
      (Ok progress, @init scripted_LLM []) /\
    @progress_percentage exact_PyFloat progress = @Int exact_PyFloat 0.
Proof.
  destruct (@monitor_progress_total scripted_LLM exact_PyFloat (@init scripted_LLM []))
    as (progress & Hreturns & _ & _ & _ & Hzero & _).
  exists progress. split; [exact Hreturns | apply Hzero; reflexivity].
Defined.

(** The report of [monitor_progress], written out. *)
Lemma monitor_progress_value `{LLM} `{PyFloat} (self : Agent) :
  let total := Z.of_nat (length (current_plan self)) in
  let completed := Z.of_nat (length (execution_log self)) in
  monitor_progress self =
    (Ok (mkProgress total completed
           (if total >? 0
            then Float (float_mul_int (int_truediv completed total) 100)
            else Int 0)
           (total - completed)), self).
Proof.
  intros total completed. unfold monitor_progress.
  rewrite (bind_Ok get_self _ self self self eq_refl).
  fold total completed.
  destruct (Z.gtb_spec total 0) as [Hpos | Hle]; [| reflexivity].
  unfold lift. cbn [mbind method_bind mret method_ret].
  rewrite (truediv_nonzero completed total) by lia. reflexivity.
Qed.

Lemma monitor_progress_unchanged `{LLM} `{PyFloat} (self : Agent) :
  exists progress, monitor_progress self = (Ok progress, self).
Proof. eexists. apply monitor_progress_value. Qed.

(** ** The plan and its execution *)

Lemma create_plan_returns `{LLM} `{Json} (task : string) (self : Agent) :
  exists plan self1,
    create_plan task self = (Ok plan, self1) /\
    execution_log self1 = execution_log self.
Proof.
  unfold create_plan.
  erewrite bind_Ok by reflexivity.
  destruct (negb (find "[" _ =? -1) && (rfind "]" _ + 1 >? find "[" _))%bool.
  - destruct (json_loads _) as [plan|].
    + do 2 eexists. split; reflexivity.
    + do 2 eexists. split; reflexivity.
  - do 2 eexists. split; reflexivity.
Qed.

Lemma complete_dec (step : Step.t) : {complete step} + {~ complete step}.
Proof.
  unfold complete.
  destruct (Step.step_number step), (Step.description step),
    (Step.estimated_complexity step);
    first [ left; repeat split; eexists; reflexivity
          | right; intros (Hn & Hd & Hc);
            first [ destruct Hn as [? Hn]; discriminate Hn
                  | destruct Hd as [? Hd]; discriminate Hd
                  | destruct Hc as [? Hc]; discriminate Hc ] ].
Qed.

Lemma execute_step_complete `{LLM} (step : Step.t) (context : string)
    (self : Agent) :
  complete step ->
  exists result self',
    execute_step step context self = (Ok result, self') /\
    executed step result /\
    execution_log self' = execution_log self ++ [result] /\
    current_plan self' = current_plan self.
Proof.
  intros ([n Hn] & [d Hd] & [c Hc]).
  unfold execute_step. rewrite Hn, Hd, Hc.
  do 2 eexists. split; [reflexivity |].
  split; [| split; reflexivity].
  unfold executed. rewrite Hn, Hd. simpl.
  repeat split; try reflexivity. eexists; reflexivity.
Qed.

Lemma execute_step_incomplete `{LLM} (step : Step.t) (context : string)
    (self : Agent) :
  ~ complete step ->
  exists e, execute_step step context self = (Raise e, self).
Proof.
  intros Hincomplete. unfold execute_step.
  destruct (Step.step_number step) as [n|] eqn:Hn;
    [| eexists; reflexivity].
  destruct (Step.description step) as [d|] eqn:Hd;
    [| eexists; reflexivity].
  destruct (Step.estimated_complexity step) as [c|] eqn:Hc;
    [| eexists; reflexivity].
  exfalso. apply Hincomplete. unfold complete. rewrite Hn, Hd, Hc.
  repeat split; eexists; reflexivity.
Qed.

(** The loop logs an entry for each step of a prefix of the plan, in the
    order of the plan, and for each step of the plan when every step is
    complete. *)
Lemma execute_plan_log `{PyStr} `{LLM} `{PyFloat} (plan : list Step.t) :
  forall (context : string) (progress : option Progress) (self : Agent),
  exists (k : nat) (entries : list Result.t) r self',
    execute_plan plan context progress self = (r, self') /\
    execution_log self' = execution_log self ++ entries /\
    current_plan self' = current_plan self /\
    Forall2 executed (take k plan) entries /\
    (Forall complete plan ->
     k = length plan /\
     exists final, r = Ok final /\ (plan <> [] -> is_Some final.2)).
Proof.
  induction plan as [|step rest IH]; intros context progress self.
  - exists 0%nat, [], (Ok (context, progress)), self.
    split; [reflexivity |]. split; [symmetry; apply app_nil_r |].
    split; [reflexivity |]. split; [constructor |].
    intros _. split; [reflexivity |].
    eexists. split; [reflexivity | intros Hne; contradiction].
  - destruct (complete_dec step) as [Hstep | Hstep].
    + destruct (execute_step_complete step context self Hstep)
        as (result & self1 & Hexec & Hexecuted & Hlog1 & Hplan1).
      destruct (monitor_progress_unchanged self1) as [progress1 Hmonitor].
      destruct Hstep as ([n Hn] & _).
      destruct Hexecuted as (Hrn & Hrd & [out Hout] & Hstatus).
      set (context1 := context +:+ "Step " +:+ pretty n +:+ ": "
                         +:+ take_chars 200 out +:+ "..." +:+ nl +:+ nl).
      destruct (IH context1 (Some progress1) self1)
        as (k & entries & r & self' & Hrest & Hlog & Hplan & Hall & Hcomplete).
      exists (S k), (result :: entries), r, self'.
      split.
      { cbn [execute_plan].
        rewrite (bind_Ok _ _ _ _ _ Hexec). rewrite Hn, Hout.
        erewrite bind_Ok by reflexivity. cbv beta.
        erewrite bind_Ok by reflexivity. cbv beta.
        rewrite (bind_Ok _ _ _ _ _ Hmonitor).
        destruct (should_replan result);
          (erewrite bind_Ok by reflexivity); exact Hrest. }
      split; [rewrite Hlog, Hlog1, <- app_assoc; reflexivity |].
      split; [rewrite Hplan, Hplan1; reflexivity |].
      split.
      { cbn [take]. constructor; [| exact Hall].
        unfold executed. rewrite Hrn, Hrd, Hout, Hstatus.
        repeat split; eexists; reflexivity. }
      intros Hforall. apply Forall_cons_1 in Hforall as [_ Hforall].
      destruct (Hcomplete Hforall) as (-> & final & -> & Hsome).
      split; [reflexivity |]. exists final. split; [reflexivity |].
      intros _. destruct rest as [|step' rest'].
      * cbn [execute_plan] in Hrest. injection Hrest as <- _.
        eexists; reflexivity.
      * apply Hsome. discriminate.
    + destruct (execute_step_incomplete step context self Hstep) as [e Hexec].
      exists 0%nat, [], (Raise e), self.
      split; [cbn [execute_plan]; apply (bind_Raise _ _ _ _ _ Hexec) |].
      split; [symmetry; apply app_nil_r |].
      split; [reflexivity |]. split; [constructor |].
      intros Hforall. apply Forall_cons_1 in Hforall as [Hcomplete _].
      contradiction.
Qed.

Lemma announce_plan_complete (plan : list Step.t) :
  Forall complete plan -> announce_plan plan = Ok tt.
Proof.
  induction 1 as [|step rest ([n Hn] & [d Hd] & _) _ IH]; [reflexivity |].
  cbn [announce_plan]. rewrite Hn, Hd. exact IH.
Qed.

(** What [run] leaves in the execution log, whether it returns or raises. *)
Lemma run_log `{PyStr} `{LLM} `{Json} `{PyFloat} (task : string) (self : Agent) :
  exists (plan : list Step.t) (self1 : Agent) (k : nat) (entries : list Result.t),
    create_plan task self = (Ok plan, self1) /\
    execution_log (run task self).2 = execution_log self ++ entries /\
    Forall2 executed (take k plan) entries /\
    (Forall complete plan ->
     k = length plan /\
     (plan <> [] ->
      exists final,
        (run task self).1 = Ok final /\
        FinalResult.plan final = plan /\
        FinalResult.execution_log final = execution_log self ++ entries)).
Proof.
  destruct (create_plan_returns task self) as (plan & self1 & Hcreate & Hlog1).
  exists plan, self1.
  unfold run. rewrite (bind_Ok _ _ _ _ _ Hcreate).
  destruct (announce_plan plan) as [[]|e] eqn:Hannounce.
  - erewrite bind_Ok by reflexivity.
    destruct (execute_plan_log plan ("Task: " +:+ task +:+ nl +:+ nl) None self1)
      as (k & entries & r & self' & Hloop & Hlog & _ & Hall & Hcomplete).
    exists k, entries.
    split; [exact Hcreate |].
    destruct r as [loop|e].
    + rewrite (bind_Ok _ _ _ _ _ Hloop).
      destruct (monitor_progress_unchanged self') as [progress Hmonitor].
      rewrite (bind_Ok _ _ _ _ _ Hmonitor).
      erewrite bind_Ok by reflexivity.
      split.
      { destruct loop.2; unfold mbind, method_bind, lift; cbn;
          rewrite Hlog, Hlog1; reflexivity. }
      split; [exact Hall |].
      intros Hforall. destruct (Hcomplete Hforall) as (-> & final & [= <-] & Hsome).
      split; [reflexivity |].
      intros Hne. destruct (Hsome Hne) as [p ->].
      eexists. split; [reflexivity |]. split; [reflexivity |].
      cbn. rewrite Hlog, Hlog1. reflexivity.
    + rewrite (bind_Raise _ _ _ _ _ Hloop).
      split; [cbn; rewrite Hlog, Hlog1; reflexivity |].
      split; [exact Hall |].
      intros Hforall. destruct (Hcomplete Hforall) as (_ & final & [=] & _).
  - erewrite bind_Raise by reflexivity.
    exists 0%nat, [].
    split; [exact Hcreate |].
    split; [cbn; rewrite Hlog1, app_nil_r; reflexivity |].
    split; [constructor |].
    intros Hforall. rewrite (announce_plan_complete plan Hforall) in Hannounce.
    discriminate Hannounce.
Qed.

(** On an empty plan [run] executes nothing and then raises: its last
    [print] reads [progress], which only the body of the loop binds. *)
Lemma run_empty_plan `{PyStr} `{LLM} `{Json} `{PyFloat} (task : string)
    (self self1 : Agent) :
  create_plan task self = (Ok [], self1) ->
  run task self = (Raise (UnboundLocalError "progress"), self1).
Proof.
  intros Hcreate. unfold run. rewrite (bind_Ok _ _ _ _ _ Hcreate).
  erewrite bind_Ok by reflexivity.
  erewrite bind_Ok by reflexivity.
  destruct (monitor_progress_unchanged self1) as [progress Hmonitor].
  rewrite (bind_Ok _ _ _ _ _ Hmonitor).
  erewrite bind_Ok by reflexivity.
  reflexivity.
Qed.

(** C7, as the code has it. [should_replan] answers [True] exactly when
    the lowered output of the last result has "error" or "failed" as a
    substring, an absent output counting as the empty string. Its answer
    changes nothing in the run: the loop of [run] logs one entry for each
    step of the plan, in the order of the plan, for every plan whose
    steps carry the keys [step_number], [description] and
    [estimated_complexity] with an integer for the first and strings for
    the other two, which is what [complete] says of a [Step.t], and
    whatever the model answers; and for every plan of such steps, with
    their keys or without, the entries [run] logs are those of a prefix
    of the plan, each step once. *)
Theorem should_replan_never_redoes `{PyStr} `{LLM} `{Json} `{PyFloat} :
  (forall last_result : Result.t,
     should_replan last_result = true <->
     substring_of "error" (lower (get_or (Result.output last_result) "")) \/
     substring_of "failed" (lower (get_or (Result.output last_result) ""))) /\
  (forall (plan : list Step.t) (context : string) (progress : option Progress)
          (self : Agent),
     Forall complete plan ->
     exists entries final self',
       execute_plan plan context progress self = (Ok final, self') /\
       execution_log self' = execution_log self ++ entries /\
       Forall2 executed plan entries) /\
  (forall (task : string) (self : Agent),
     exists (plan : list Step.t) (self1 : Agent) (k : nat)
            (entries : list Result.t),
       create_plan task self = (Ok plan, self1) /\
       execution_log (run task self).2 = execution_log self ++ entries /\
       Forall2 executed (take k plan) entries /\
       (Forall complete plan ->
        k = length plan /\
        (plan <> [] ->
         exists final,
           (run task self).1 = Ok final /\
           FinalResult.plan final = plan /\
           FinalResult.execution_log final = execution_log self ++ entries))).
Proof.
  split; [exact should_replan_spec | split].
  - intros plan context progress self Hforall.
    destruct (execute_plan_log plan context progress self)
      as (k & entries & r & self' & Hloop & Hlog & _ & Hall & Hcomplete).
    destruct (Hcomplete Hforall) as (-> & final & -> & _).
    rewrite firstn_all in Hall.
    exists entries, final, self'. repeat split; assumption.
  - exact run_log.
Qed.

Lemma should_replan_never_redoes_witness :
  exists entries final self',
    @execute_plan ascii_PyStr scripted_LLM exact_PyFloat two_steps "" None
      (@init scripted_LLM ["went well"; "Error: the tool FAILED"]) =
      (Ok final, self') /\
    @execution_log scripted_LLM self' = [] ++ entries /\
    Forall2 executed two_steps entries.
Proof.
  destruct (@should_replan_never_redoes ascii_PyStr scripted_LLM sample_Json
              exact_PyFloat) as (_ & Hloop & _).
  apply (Hloop two_steps "" None
           (@init scripted_LLM ["went well"; "Error: the tool FAILED"])).
  repeat constructor; eexists; reflexivity.
Defined.

(** C7, as stated, fails for a plan with a step that lacks a key: the
    model sends a plan of one step without [description], the printing
    loop of [run] raises [KeyError] on [step['description']], and the
    step is not executed. *)
Lemma run_skips_step_without_description :
  @create_plan scripted_LLM sample_Json "cross"
    (@init scripted_LLM ["Plan: " +:+ nameless_step_text; "went well"]) =
    (Ok nameless_step, @mkAgent scripted_LLM ["went well"] nameless_step []) /\
  (@run ascii_PyStr scripted_LLM sample_Json exact_PyFloat "cross"
     (@init scripted_LLM ["Plan: " +:+ nameless_step_text; "went well"])).1 =
    Raise (KeyError "description") /\
  @execution_log scripted_LLM
    (@run ascii_PyStr scripted_LLM sample_Json exact_PyFloat "cross"
       (@init scripted_LLM ["Plan: " +:+ nameless_step_text; "went well"])).2 = [].
Proof. vm_compute. repeat split; reflexivity. Qed.

(** A run in which [should_replan] answers [True] for the second step:
    the log holds the two steps once each, in order. *)
Example run_with_failed_step :
  let self := @init scripted_LLM
                ["Plan: " +:+ two_steps_text;
                 "went well"; "Error: the tool FAILED"] in
  let after := @run ascii_PyStr scripted_LLM sample_Json exact_PyFloat "cross" self in
  map Result.step_number (@execution_log scripted_LLM after.2) = [Some 1; Some 2] /\
  map (@should_replan ascii_PyStr) (@execution_log scripted_LLM after.2) =
    [false; true] /\
  (exists final, after.1 = Ok final).
Proof.
  vm_compute. split; [reflexivity |]. split; [reflexivity |].
  eexists. reflexivity.
Qed.

(** A plan whose step lacks a key is not executed: [execute_step] raises
    on [step['estimated_complexity']], which the printing loop of [run]
    reads with [get]. *)
Example run_with_short_step :
  let self := @init scripted_LLM ["Plan: " +:+ short_step_text; "went well"] in
  let after := @run ascii_PyStr scripted_LLM sample_Json exact_PyFloat "cross" self in
  after.1 = Raise (KeyError "estimated_complexity") /\
  @execution_log scripted_LLM after.2 = [].
Proof. vm_compute. split; reflexivity. Qed.

(** A plan that is the empty list: nothing to execute, and [run] raises. *)
Example run_with_empty_plan :
  let self := @init scripted_LLM ["[]"] in
  let after := @run ascii_PyStr scripted_LLM sample_Json exact_PyFloat "cross" self in
  after.1 = Raise (UnboundLocalError "progress") /\
  @execution_log scripted_LLM after.2 = [].
Proof. vm_compute. split; reflexivity. Qed.

(** An answer without a list: the fallback plan is executed, and
    [current_plan] is left empty, so that the progress reads 0 of 0. *)
Example run_with_fallback_plan :
  let self := @init scripted_LLM ["no plan, sorry"] in
  let after := @run ascii_PyStr scripted_LLM sample_Json exact_PyFloat "cross" self in
  map Result.step_number (@execution_log scripted_LLM after.2) =
    [Some 1; Some 2; Some 3; Some 4] /\
  @current_plan scripted_LLM after.2 = [] /\
  (exists final,
     after.1 = Ok final /\
     FinalResult.progress final =
       @mkProgress exact_PyFloat 0 4 (@Int exact_PyFloat 0) (-4)).
Proof.
  vm_compute. split; [reflexivity |]. split; [reflexivity |].
  eexists. split; reflexivity.
Qed.

End PlanAndExecuteProperties.

(** * Further properties of hierarchical.py *)

Section HierarchicalFurther.
Import Hierarchical.

(** ** Runs from any record *)

Lemma run_from_cons (g : StateGraph) (fuel : nat) (node : string)
    (state : AgentState) (next : string) (state' : AgentState)
    (log : list (string * AgentState)) (final : AgentState) :
  String.eqb node END = false ->
  superstep g node state = Ok (next, state') ->
  run_from g fuel next state' = Ok (log, final) ->
  run_from g (S fuel) node state = Ok ((node, state) :: log, final).
Proof.
  intros Hnode Hstep Hrest. cbn [run_from]. rewrite Hnode, Hstep.
  cbn [mbind res_bind fst snd]. rewrite Hrest. reflexivity.
Qed.

Lemma run_from_END (g : StateGraph) (fuel : nat) (state : AgentState) :
  run_from g fuel END state = Ok ([], state).
Proof. destruct fuel; reflexivity. Qed.

Lemma invoke_logged_record `{PyStr} (m : list BaseMessage) (t : string)
    (r a w f n : option string) :
  invoke_logged create_hierarchical_workflow
    (mkAgentState (Some m) (Some t) r a w f n) =
  run_from create_hierarchical_workflow (recursion_limit - 1) "manager"
    (mkAgentState (Some m) (Some t) r a w f n).
Proof. destruct r, a, w, f, n; reflexivity. Qed.

Lemma superstep_manager_record `{PyStr} (m : list BaseMessage) (t : string)
    (r a w f n : option string) :
  let label :=
    if truthy r then
      if truthy a then if truthy w then "finalize" else "writing"
      else "analysis"
    else "research" in
  superstep create_hierarchical_workflow "manager"
    (mkAgentState (Some m) (Some t) r a w f n) =
  Ok (label, mkAgentState (Some (m ++ m)) (Some t) r a w f (Some label)).
Proof.
  destruct r as [[|cr r]|], a as [[|ca a]|], w as [[|cw w]|], f; reflexivity.
Qed.

Lemma superstep_research_record `{PyStr} (m : list BaseMessage) (t : string)
    (r a w f n : option string) :
  superstep create_hierarchical_workflow "research"
    (mkAgentState (Some m) (Some t) r a w f n) =
  Ok ("manager",
      mkAgentState (Some (m ++ m)) (Some t) (Some (research t)) a w f
                   (Some "manager")).
Proof. destruct a, w, f; reflexivity. Qed.

Lemma superstep_analysis_record `{PyStr} (m : list BaseMessage) (t r : string)
    (a w f n : option string) :
  superstep create_hierarchical_workflow "analysis"
    (mkAgentState (Some m) (Some t) (Some r) a w f n) =
  Ok ("manager",
      mkAgentState (Some (m ++ m)) (Some t) (Some r) (Some (analyze r)) w f
                   (Some "manager")).
Proof. destruct w, f; reflexivity. Qed.

Lemma superstep_writing_record `{PyStr} (m : list BaseMessage) (t r a : string)
    (w f n : option string) :
  superstep create_hierarchical_workflow "writing"
    (mkAgentState (Some m) (Some t) (Some r) (Some a) w f n) =
  Ok ("manager",
      mkAgentState (Some (m ++ m)) (Some t) (Some r) (Some a)
                   (Some (write (r +:+ nl +:+ nl +:+ a))) f (Some "manager")).
Proof. destruct f; reflexivity. Qed.

Lemma superstep_finalize_record `{PyStr} (m : list BaseMessage) (t r a w : string)
    (f n : option string) :
  superstep create_hierarchical_workflow "finalize"
    (mkAgentState (Some m) (Some t) (Some r) (Some a) (Some w) f n) =
  Ok (END,
      mkAgentState (Some (m ++ m)) (Some t) (Some r) (Some a) (Some w)
                   (Some (report t r a w)) (Some "end")).
Proof. reflexivity. Qed.

Lemma str_truthy_research `{PyStr} (topic : string) :
  str_truthy (research topic) = true.
Proof. reflexivity. Qed.

Lemma str_truthy_analyze `{PyStr} (data : string) :
  str_truthy (analyze data) = true.
Proof. reflexivity. Qed.

Lemma str_truthy_write (content : string) : str_truthy (write content) = true.
Proof. reflexivity. Qed.

Ltac node_call :=
  eapply run_from_cons;
    [ reflexivity
    | lazymatch goal with
      | |- superstep _ "manager" _ = _ => apply superstep_manager_record
      | |- superstep _ "research" _ = _ => apply superstep_research_record
      | |- superstep _ "analysis" _ = _ => apply superstep_analysis_record
      | |- superstep _ "writing" _ = _ => apply superstep_writing_record
      | |- superstep _ "finalize" _ = _ => apply superstep_finalize_record
      end
    | cbn [truthy];
      rewrite ?str_truthy_research, ?str_truthy_analyze, ?str_truthy_write;
      cbn [str_truthy] ].

(** The run from a record with its task and messages, in full. *)
Lemma invoke_logged_resumes `{PyStr} (m : list BaseMessage) (t : string)
    (r a w f n : option string) :
  let R := kept_or r (research t) in
  let A := kept_or a (analyze R) in
  let W := kept_or w (write (R +:+ nl +:+ nl +:+ A)) in
  exists log : list (string * AgentState),
    invoke_logged create_hierarchical_workflow
      (mkAgentState (Some m) (Some t) r a w f n) =
      Ok (log,
          mkAgentState (Some (doubled (length log) m)) (Some t)
                       (Some R) (Some A) (Some W) (Some (report t R A W))
                       (Some "end")) /\
    (length log <= 8)%nat /\
    map fst (worker_calls log) = pending_calls (truthy r) (truthy a) (truthy w).
Proof.
  rewrite invoke_logged_record.
  change (recursion_limit - 1)%nat with 24%nat.
  destruct r as [[|cr r]|], a as [[|ca a]|], w as [[|cw w]|];
    cbn [kept_or truthy str_truthy pending_calls app];
    eexists; (split; [do 8 (try node_call); apply run_from_END |]);
    (split; [cbn [length]; lia | reflexivity]).
Qed.

(** X1. A run resumes a record: from every record that has its task and
    messages, whatever its result fields hold, the graph reaches [END]
    within eight node calls; the workers called are those of the empty
    fields, in the order research, analysis, writing, and then finalize;
    a filled field is kept as it is, an empty one receives what its
    worker makes of the task and of the fields before it; and the report
    is made of the task and these three values. *)
Theorem invoke_resumes_record `{PyStr} (state : AgentState) (t : string)
    (m : list BaseMessage) :
  task state = Some t -> messages state = Some m ->
  let R := kept_or (research_results state) (research t) in
  let A := kept_or (analysis_results state) (analyze R) in
  let W := kept_or (writing_results state) (write (R +:+ nl +:+ nl +:+ A)) in
  exists (log : list (string * AgentState)) (final : AgentState),
    invoke_logged create_hierarchical_workflow state = Ok (log, final) /\
    (length log <= 8)%nat /\
    map fst (worker_calls log) =
      pending_calls (truthy (research_results state))
                    (truthy (analysis_results state))
                    (truthy (writing_results state)) /\
    task final = Some t /\
    research_results final = Some R /\
    analysis_results final = Some A /\
    writing_results final = Some W /\
    final_output final = Some (report t R A W) /\
    next_agent final = Some "end".
Proof.
  destruct state as [ms ts r a w f n]. cbn [task messages].
  intros -> ->. cbv zeta.
  destruct (invoke_logged_resumes m t r a w f n) as (log & Hrun & Hlen & Hcalls).
  eexists log, _. split; [exact Hrun |].
  split; [exact Hlen |]. split; [exact Hcalls |].
  repeat split; reflexivity.
Qed.

Lemma invoke_resumes_record_witness :
  exists (log : list (string * AgentState)) (final : AgentState),
    invoke_logged (@create_hierarchical_workflow ascii_PyStr)
      (set_research_results "Found earlier." (initial_state "demo")) =
      Ok (log, final) /\
    map fst (worker_calls log) = ["analysis"; "writing"; "finalize"] /\
    research_results final = Some "Found earlier.".
Proof.
  destruct (@invoke_resumes_record ascii_PyStr
              (set_research_results "Found earlier." (initial_state "demo"))
              "demo" [HumanMessage "demo"] eq_refl eq_refl)
    as (log & final & Hrun & _ & Hcalls & _ & Hresearch & _).
  exists log, final. split; [exact Hrun |].
  split; [exact Hcalls | exact Hresearch].
Defined.

Lemma length_doubled {A : Type} (k : nat) (l : list A) :
  length (doubled k l) = (2 ^ k * length l)%nat.
Proof.
  induction k as [|k IH]; cbn [doubled].
  - simpl. lia.
  - rewrite length_app, IH, Nat.pow_succ_r'. lia.
Qed.

(** X3. Every node returns the record it was given, and the channel of
    [messages] appends what a node returns to what it holds: the list of
    messages doubles at each node call. A run that made [k] calls returns
    [2 ^ k] times the messages it was given, 256 copies of the one
    message for the record [main] builds. *)
Theorem messages_double_at_each_call `{PyStr} (state : AgentState) (t : string)
    (m : list BaseMessage) :
  task state = Some t -> messages state = Some m ->
  exists (log : list (string * AgentState)) (final : AgentState)
         (ms : list BaseMessage),
    invoke_logged create_hierarchical_workflow state = Ok (log, final) /\
    messages final = Some ms /\
    ms = doubled (length log) m /\
    length ms = (2 ^ length log * length m)%nat /\
    (forall task : string,
       state = initial_state task ->
       length log = 8%nat /\ ms = repeat (HumanMessage task) 256).
Proof.
  destruct state as [ms0 ts r a w f n]. cbn [task messages].
  intros -> ->.
  destruct (invoke_logged_resumes m t r a w f n) as (log & Hrun & _).
  eexists log, _, _. split; [exact Hrun |].
  split; [reflexivity |]. split; [reflexivity |].
  split; [apply length_doubled |].
  intros task [= -> -> -> -> -> -> ->].
  pose proof (invoke_logged_course task) as Hcourse.
  unfold initial_state in Hcourse. rewrite Hcourse in Hrun.
  injection Hrun as <-. split; reflexivity.
Qed.

Lemma messages_double_at_each_call_witness :
  exists (log : list (string * AgentState)) (final : AgentState),
    invoke_logged (@create_hierarchical_workflow ascii_PyStr)
      (initial_state "demo") = Ok (log, final) /\
    messages final = Some (repeat (HumanMessage "demo") 256).
Proof.
  destruct (@messages_double_at_each_call ascii_PyStr (initial_state "demo")
              "demo" [HumanMessage "demo"] eq_refl eq_refl)
    as (log & final & ms & Hrun & Hms & _ & _ & Hmain).
  destruct (Hmain "demo" eq_refl) as [_ ->].
  exists log, final. split; [exact Hrun | exact Hms].
Defined.

(** ** Routing *)

Lemma routing_values (label node : string) :
  routing !! label = Some node ->
  node ∈ ["manager"; "research"; "analysis"; "writing"; "finalize"; END].
Proof.
  unfold routing. intros Hlookup.
  repeat (rewrite lookup_insert in Hlookup;
          destruct (decide _) in Hlookup;
          [injection Hlookup as <-; set_solver |]).
  rewrite lookup_empty in Hlookup. discriminate Hlookup.
Qed.

(** X4. Whatever [next_agent] holds, or when it is absent, the
    conditional edge of the manager finds the answer of [route_agent]
    among the keys of its path map, so that this lookup does not raise,
    and what it leads to is [END] or the name of a node of the graph. *)
Theorem manager_edge_never_dangles `{PyStr} (state : AgentState) :
  exists node : string,
    successor create_hierarchical_workflow "manager" state = Ok node /\
    (node = END \/ is_Some (nodes create_hierarchical_workflow !! node)).
Proof.
  assert (route_agent state ∈
            ["manager"; "research"; "analysis"; "writing"; "finalize"; END])
    as Hanswer.
  { unfold route_agent.
    destruct (routing !! get_or (next_agent state) "manager") as [node|] eqn:Hr.
    - exact (routing_values _ _ Hr).
    - set_solver. }
  exists (route_agent state).
  change (successor create_hierarchical_workflow "manager" state)
    with (getitem (route_agent state)
            ((<[END := END]>
              (<["finalize" := "finalize"]>
              (<["writing" := "writing"]>
              (<["analysis" := "analysis"]>
              (<["research" := "research"]>
              (<["manager" := "manager"]> (∅ : gmap string string)))))))
               !! route_agent state)).
  repeat (apply elem_of_cons in Hanswer as [-> | Hanswer];
          [split; [reflexivity | first [left; reflexivity | right; eexists; reflexivity]] |]).
  apply elem_of_nil in Hanswer. contradiction.
Qed.

(** ** The simulated tools *)

(** *** Characters

    [chars] cuts a text into its characters: [join] puts them back, and
    the characters of two texts put together are those of the first and
    those of the second, when the second begins with a character. *)



Lemma chars_cons (c : ascii) (rest : string) :
  chars (String c rest) =
  match chars rest with
  | h :: t => if starts_char rest then String c "" :: h :: t else String c h :: t
  | [] => [String c ""]
  end.
Proof. reflexivity. Qed.

Lemma chars_head (c : ascii) (s : string) :
  exists h t, chars (String c s) = String c h :: t.
Proof.
  cbn [chars]. destruct (chars s) as [|k t]; [eexists _, _; reflexivity |].
  destruct (starts_char s); eexists _, _; reflexivity.
Qed.

Lemma chars_app (a b : string) :
  starts_char b = true -> chars (a +:+ b) = chars a ++ chars b.
Proof.
  intros Hb. induction a as [|c a IH]; [reflexivity |].
  change (String c a +:+ b) with (String c (a +:+ b)).
  rewrite !chars_cons, IH.
  destruct a as [|d a].
  - change ("" +:+ b) with b. rewrite Hb. cbn [chars app].
    destruct (chars b); reflexivity.
  - destruct (chars_head d a) as (h & t & ->).
    change (String d a +:+ b) with (String d (a +:+ b)).
    cbn [starts_char app]. destruct (continuation d); reflexivity.
Qed.













Lemma take_chars_app_long (n : nat) (a b : string) :
  (n <= str_len a)%nat -> starts_char b = true ->
  take_chars n (a +:+ b) = take_chars n a.
Proof.
  unfold str_len, take_chars. intros Hlen Hb.
  rewrite chars_app by exact Hb. rewrite take_app_le by exact Hlen. reflexivity.
Qed.


(** *** The tools *)

Lemma web_search_loop_first `{PyStr} (query : string)
    (before : list (string * string)) (key finding : string)
    (after : list (string * string)) :
  contains key (lower query) = true ->
  (forall entry, entry ∈ before -> contains entry.1 (lower query) = false) ->
  web_search_loop (before ++ (key, finding) :: after) query =
    Some ("Research finding: " +:+ finding).
Proof.
  intros Hkey. induction before as [|[k f] before IH]; intros Hbefore.
  - cbn [app web_search_loop]. rewrite Hkey. reflexivity.
  - cbn [app web_search_loop].
    pose proof (Hbefore (k, f)) as Hk. cbn [fst] in Hk.
    rewrite Hk by (apply elem_of_cons; left; reflexivity).
    apply IH. intros entry Hin. apply Hbefore, elem_of_cons. right. exact Hin.
Qed.

Lemma web_search_loop_none `{PyStr} (query : string) (kb : list (string * string)) :
  (forall entry, entry ∈ kb -> contains entry.1 (lower query) = false) ->
  web_search_loop kb query = None.
Proof.
  induction kb as [|[k f] kb IH]; intros Hkb; [reflexivity |].
  cbn [web_search_loop].
  pose proof (Hkb (k, f)) as Hk. cbn [fst] in Hk.
  rewrite Hk by (apply elem_of_cons; left; reflexivity).
  apply IH. intros entry Hin. apply Hkb, elem_of_cons. right. exact Hin.
Qed.

Lemma contains_false (needle hay : string) :
  contains needle hay = false <-> ~ PlanAndExecute.substring_of needle hay.
Proof.
  rewrite <- contains_spec. destruct (contains needle hay); split; congruence.
Qed.

(** X5. [web_search] answers with the finding of the first key of its
    knowledge base, in the order of the dictionary, that occurs in the
    lowered query, whatever later keys occur in it too; when no key
    occurs, it answers with the query itself, not lowered, after a fixed
    text. *)
Theorem web_search_first_match `{PyStr} (query : string) :
  (forall (before : list (string * string)) (key finding : string)
          (after : list (string * string)),
     knowledge_base = before ++ (key, finding) :: after ->
     PlanAndExecute.substring_of key (lower query) ->
     (forall entry, entry ∈ before ->
                    ~ PlanAndExecute.substring_of entry.1 (lower query)) ->
     web_search query = "Research finding: " +:+ finding) /\
  ((forall entry, entry ∈ knowledge_base ->
                  ~ PlanAndExecute.substring_of entry.1 (lower query)) ->
   web_search query = "Research finding: General information about " +:+ query).
Proof.
  unfold web_search. split.
  - intros before key finding after -> Hkey%contains_spec Hbefore.
    rewrite (web_search_loop_first query before key finding after Hkey);
      [reflexivity |].
    intros entry Hin. apply contains_false, Hbefore, Hin.
  - intros Hnone. rewrite web_search_loop_none; [reflexivity |].
    intros entry Hin. apply contains_false, Hnone, Hin.
Qed.

Lemma web_search_first_match_witness :
  @web_search ascii_PyStr "Blockchain against Climate Change" =
    "Research finding: Climate change involves rising global temperatures and environmental impacts.".
Proof.
  destruct (@web_search_first_match ascii_PyStr "Blockchain against Climate Change")
    as [Hfirst _].
  apply (Hfirst
           [("artificial intelligence",
             "AI is transforming industries with machine learning, NLP, and computer vision.")]
           "climate change" _
           [("quantum computing",
             "Quantum computers use qubits to solve complex problems faster than classical computers.");
            ("blockchain",
             "Blockchain is a distributed ledger technology enabling secure, transparent transactions.")]).
  - reflexivity.
  - apply contains_spec. vm_compute. reflexivity.
  - intros entry ->%list_elem_of_singleton.
    apply contains_false. vm_compute. reflexivity.
Defined.

(** X6. [sentiment_analysis] has two answers: the positive one when one
    of its five words occurs in the lowered text, the neutral one when
    none does. *)
Theorem sentiment_analysis_cases `{PyStr} (text : string) :
  ((exists word, word ∈ positive_words /\
                 PlanAndExecute.substring_of word (lower text)) ->
   sentiment_analysis text =
     "Sentiment: Positive - The content has optimistic and constructive themes") /\
  ((forall word, word ∈ positive_words ->
                 ~ PlanAndExecute.substring_of word (lower text)) ->
   sentiment_analysis text =
     "Sentiment: Neutral - The content presents factual information").
Proof.
  unfold sentiment_analysis.
  destruct (existsb (fun word => contains word (lower text)) positive_words)
    eqn:Hany.
  - split; [reflexivity |]. intros Hnone.
    apply existsb_exists in Hany as (word & Hin%list_elem_of_In & Hword).
    apply contains_spec in Hword. destruct (Hnone word Hin Hword).
  - split; [| reflexivity]. intros (word & Hin & Hword%contains_spec).
    assert (existsb (fun word => contains word (lower text)) positive_words = true)
      as Hyes by (apply existsb_exists; exists word;
                  split; [apply list_elem_of_In; exact Hin | exact Hword]).
    congruence.
Qed.

Lemma sentiment_analysis_cases_witness :
  @sentiment_analysis ascii_PyStr "A GREAT many results" =
    "Sentiment: Positive - The content has optimistic and constructive themes".
Proof.
  apply (@sentiment_analysis_cases ascii_PyStr "A GREAT many results").
  exists "great". split.
  - unfold positive_words. set_solver.
  - apply contains_spec. vm_compute. reflexivity.
Defined.

(** X7. The writing worker reads the first 150 characters of what it is
    given, counted as Python counts them, and nothing after them. Since
    [writing_node] gives it the research result followed by the analysis
    result, a research result of 150 characters or more leaves the
    analysis out of the written report: two records with that research
    result receive the same [writing_results], whatever their analysis
    results. *)
Theorem writing_reads_150_characters :
  (forall content content' : string,
     take_chars 150 content = take_chars 150 content' ->
     write content = write content') /\
  (forall (state state' : AgentState) (r a a' : string),
     research_results state = Some r -> research_results state' = Some r ->
     analysis_results state = Some a -> analysis_results state' = Some a' ->
     (150 <= str_len r)%nat ->
     exists written written',
       writing_node state = Ok written /\
       writing_node state' = Ok written' /\
       writing_results written = Some (write r) /\
       writing_results written' = Some (write r)).
Proof.
  split.
  - intros content content' Hsame. unfold write, generate_summary.
    rewrite Hsame. reflexivity.
  - intros state state' r a a' Hr Hr' Ha Ha' Hlong.
    unfold writing_node. rewrite Hr, Hr', Ha, Ha'. cbn [mbind res_bind getitem].
    do 2 eexists. split; [reflexivity |]. split; [reflexivity |].
    cbn [writing_results set_writing_results set_next_agent].
    unfold write, generate_summary.
    rewrite !(take_chars_app_long 150 r) by (first [exact Hlong | reflexivity]).
    split; reflexivity.
Qed.

Lemma writing_reads_150_characters_witness :
  exists written written',
    writing_node (course_state "demo" 5 (str_mul "é" 150) "one" "" "" "writing")
      = Ok written /\
    writing_node (course_state "demo" 5 (str_mul "é" 150) "another" "" "" "writing")
      = Ok written' /\
    writing_results written = Some (write (str_mul "é" 150)) /\
    writing_results written' = Some (write (str_mul "é" 150)).
Proof.
  destruct writing_reads_150_characters as [_ Hnode].
  apply (Hnode (course_state "demo" 5 (str_mul "é" 150) "one" "" "" "writing")
               (course_state "demo" 5 (str_mul "é" 150) "another" "" "" "writing")
               (str_mul "é" 150) "one" "another");
    [reflexivity | reflexivity | reflexivity | reflexivity | vm_compute; lia].
Defined.



End HierarchicalFurther.

(** * Further properties of plan_and_execute.py *)

Section PlanAndExecuteFurther.
Import PlanAndExecute.

(** ** Searching a string *)

Lemma find_bounds (c : ascii) (s : string) :
  -1 <= find c s < Z.of_nat (String.length s) \/ (find c s = -1 /\ s = "").
Proof.
  induction s as [|x s IH]; [right; split; reflexivity |].
  left. cbn [find String.length]. destruct (Ascii.eqb x c); [lia |].
  destruct (Z.eqb_spec (find c s) (-1)); lia.
Qed.

Lemma find_absent (c : ascii) (s : string) :
  find c s = -1 <-> ~ substring_of (String c "") s.
Proof.
  unfold substring_of. induction s as [|x s IH]; cbn [find].
  - split; [| reflexivity]. intros _ (before & after & Heq).
    destruct before; discriminate Heq.
  - destruct (Ascii.eqb_spec x c) as [-> | Hne].
    + split; [discriminate |]. intros Habsent. exfalso. apply Habsent.
      exists "", s. reflexivity.
    + destruct (Z.eqb_spec (find c s) (-1)) as [Hnone | Hsome].
      * split; [| reflexivity]. intros _ (before & after & Heq).
        destruct before as [|b before].
        -- injection Heq as -> _. contradiction.
        -- injection Heq as _ ->. apply IH in Hnone. apply Hnone.
           exists before, after. reflexivity.
      * split.
        -- pose proof (find_bounds c s). lia.
        -- intros Habsent. exfalso. apply Hsome, IH.
           intros (before & after & ->). apply Habsent.
           exists (String x before), after. reflexivity.
Qed.

Lemma rfind_bounds (c : ascii) (s : string) :
  -1 <= rfind c s < Z.of_nat (String.length s) \/ (rfind c s = -1 /\ s = "").
Proof.
  induction s as [|x s IH]; [right; split; reflexivity |].
  left. cbn [rfind String.length].
  destruct (Z.eqb_spec (rfind c s) (-1)); [destruct (Ascii.eqb x c); lia | lia].
Qed.

Lemma rfind_absent (c : ascii) (s : string) :
  rfind c s = -1 <-> ~ substring_of (String c "") s.
Proof.
  unfold substring_of. induction s as [|x s IH]; cbn [rfind].
  - split; [| reflexivity]. intros _ (before & after & Heq).
    destruct before; discriminate Heq.
  - destruct (Z.eqb_spec (rfind c s) (-1)) as [Hnone | Hsome].
    + destruct (Ascii.eqb_spec x c) as [-> | Hne].
      * split; [discriminate |]. intros Habsent. exfalso. apply Habsent.
        exists "", s. reflexivity.
      * split; [| reflexivity]. intros _ (before & after & Heq).
        destruct before as [|b before].
        -- injection Heq as -> _. contradiction.
        -- injection Heq as _ ->. apply IH in Hnone. apply Hnone.
           exists before, after. reflexivity.
    + split.
      * pose proof (rfind_bounds c s). lia.
      * intros Habsent. exfalso. apply Hsome, IH.
        intros (before & after & ->). apply Habsent.
        exists (String x before), after. reflexivity.
Qed.

(** The first occurrence: [find] is the length of what comes before it. *)
Lemma find_first (c : ascii) (before after : string) :
  find c before = -1 ->
  find c (before +:+ String c after) = Z.of_nat (String.length before).
Proof.
  induction before as [|x before IH]; intros Hnone.
  - change ("" +:+ String c after) with (String c after).
    cbn [find]. rewrite Ascii.eqb_refl. reflexivity.
  - cbn [find] in Hnone.
    change (String x before +:+ String c after)
      with (String x (before +:+ String c after)).
    cbn [find String.length].
    destruct (Ascii.eqb x c); [discriminate Hnone |].
    destruct (Z.eqb_spec (find c before) (-1)) as [Hbefore | Hbefore].
    + rewrite (IH Hbefore).
      destruct (Z.eqb_spec (Z.of_nat (String.length before)) (-1)); lia.
    + pose proof (find_bounds c before). lia.
Qed.

(** The last occurrence: [rfind] is the length of what comes before it. *)
Lemma rfind_last (c : ascii) (before after : string) :
  rfind c after = -1 ->
  rfind c (before +:+ String c after) = Z.of_nat (String.length before).
Proof.
  intros Hnone. induction before as [|x before IH].
  - change ("" +:+ String c after) with (String c after).
    cbn [rfind]. rewrite Hnone, Ascii.eqb_refl. reflexivity.
  - change (String x before +:+ String c after)
      with (String x (before +:+ String c after)).
    cbn [rfind String.length]. rewrite IH.
    destruct (Z.eqb_spec (Z.of_nat (String.length before)) (-1)); lia.
Qed.

Lemma plan_string_length_app (a b : string) :
  String.length (a +:+ b) = (String.length a + String.length b)%nat.
Proof. induction a as [|c a IH]; simpl; [reflexivity | rewrite IH; reflexivity]. Qed.

Lemma string_app_assoc (a b c : string) : (a +:+ b) +:+ c = a +:+ b +:+ c.
Proof.
  induction a as [|x a IH]; [reflexivity |].
  change (String x ((a +:+ b) +:+ c) = String x (a +:+ b +:+ c)).
  rewrite IH. reflexivity.
Qed.

Lemma slice_from_app (a b : string) : slice_from (String.length a) (a +:+ b) = b.
Proof.
  induction a as [|x a IH]; [destruct b; reflexivity | exact IH].
Qed.

Lemma slice_to_app (a b : string) : slice_to (String.length a) (a +:+ b) = a.
Proof.
  induction a as [|x a IH]; [destruct b; reflexivity |].
  change (String x (slice_to (String.length a) (a +:+ b)) = String x a).
  rewrite IH. reflexivity.
Qed.

(** The slice from the first [open] to the last [close]. *)
Lemma slice_span (open close : ascii) (before middle after : string) :
  find open before = -1 -> rfind close after = -1 ->
  let content :=
    before +:+ String open middle +:+ String close after in
  find open content = Z.of_nat (String.length before) /\
  rfind close content + 1 =
    Z.of_nat (String.length before + String.length middle + 2) /\
  slice (find open content) (rfind close content + 1) content =
    String open middle +:+ String close "".
Proof.
  intros Hopen Hclose content.
  assert (find open content = Z.of_nat (String.length before)) as Hfind
    by (apply find_first; exact Hopen).
  assert (rfind close content =
            Z.of_nat (String.length (before +:+ String open middle))) as Hrfind.
  { unfold content.
    change (before +:+ String open middle +:+ String close after)
      with (before +:+ (String open middle +:+ String close after)).
    rewrite <- string_app_assoc. apply rfind_last. exact Hclose. }
  rewrite plan_string_length_app in Hrfind. cbn [String.length] in Hrfind.
  split; [exact Hfind |]. split; [rewrite Hrfind; lia |].
  unfold slice. rewrite Hfind, Hrfind, Nat2Z.id.
  replace (Z.to_nat (Z.of_nat (String.length before + S (String.length middle)) + 1
                     - Z.of_nat (String.length before)))
    with (String.length (String open middle +:+ String close "")).
  - unfold content. rewrite slice_from_app.
    change (String open middle +:+ String close after)
      with (String open (middle +:+ String close after)).
    change (String open middle +:+ String close "")
      with (String open (middle +:+ String close "")).
    replace (middle +:+ String close after)
      with ((middle +:+ String close "") +:+ after)
      by (rewrite string_app_assoc; reflexivity).
    change (String open ((middle +:+ String close "") +:+ after))
      with (String open (middle +:+ String close "") +:+ after).
    apply slice_to_app.
  - change (String open middle +:+ String close "")
      with (String open (middle +:+ String close "")).
    cbn [String.length]. rewrite plan_string_length_app. cbn [String.length]. lia.
Qed.

Lemma find_decompose (c : ascii) (s : string) :
  find c s <> -1 ->
  exists before after,
    s = before +:+ String c after /\
    find c before = -1 /\
    find c s = Z.of_nat (String.length before).
Proof.
  induction s as [|x s IH]; cbn [find]; [congruence |].
  destruct (Ascii.eqb_spec x c) as [-> | Hne].
  - intros _. exists "", s. repeat split; reflexivity.
  - destruct (Z.eqb_spec (find c s) (-1)) as [Hnone | Hsome]; [congruence |].
    intros _. destruct (IH Hsome) as (before & after & -> & Hbefore & Hfind).
    exists (String x before), after. split; [reflexivity |]. split.
    + cbn [find]. destruct (Ascii.eqb_spec x c); [contradiction |].
      rewrite Hbefore. reflexivity.
    + rewrite Hfind. cbn [String.length]. lia.
Qed.

Lemma rfind_decompose (c : ascii) (s : string) :
  rfind c s <> -1 ->
  exists before after,
    s = before +:+ String c after /\
    rfind c after = -1 /\
    rfind c s = Z.of_nat (String.length before).
Proof.
  induction s as [|x s IH]; cbn [rfind]; [congruence |].
  destruct (Z.eqb_spec (rfind c s) (-1)) as [Hnone | Hsome].
  - destruct (Ascii.eqb_spec x c) as [-> | Hne]; [| congruence].
    intros _. exists "", s. split; [reflexivity |].
    split; [exact Hnone | reflexivity].
  - intros _. destruct (IH Hsome) as (before & after & -> & Hafter & Hrfind).
    exists (String x before), after. split; [reflexivity |].
    split; [exact Hafter |]. rewrite Hrfind. cbn [String.length]. lia.
Qed.

(** Two occurrences in one string, the second further than the first. *)
Lemma between_occurrences (c d : ascii) (b1 r1 b2 a2 : string) :
  b1 +:+ String c r1 = b2 +:+ String d a2 ->
  (String.length b1 < String.length b2)%nat ->
  exists middle, r1 = middle +:+ String d a2.
Proof.
  revert b2. induction b1 as [|x b1 IH]; intros [|y b2] Heq Hlen;
    cbn [String.length] in Hlen; try lia.
  - injection Heq as _ ->. exists b2. reflexivity.
  - injection Heq as _ Heq. apply (IH b2 Heq). lia.
Qed.

Lemma same_position (c d : ascii) (b1 r1 b2 a2 : string) :
  b1 +:+ String c r1 = b2 +:+ String d a2 ->
  String.length b1 = String.length b2 -> c = d.
Proof.
  revert b2. induction b1 as [|x b1 IH]; intros [|y b2] Heq Hlen;
    try discriminate Hlen.
  - injection Heq as -> _. reflexivity.
  - injection Heq as _ Heq. injection Hlen as Hlen. exact (IH b2 Heq Hlen).
Qed.

(** The last occurrence of [c] in a string that has one after [before]. *)
Lemma rfind_after (c : ascii) (before after : string) :
  rfind c (before +:+ String c after) >= Z.of_nat (String.length before).
Proof.
  destruct (Z.eqb_spec (rfind c after) (-1)) as [Hnone | Hsome].
  - rewrite (rfind_last c before after Hnone). lia.
  - destruct (rfind_decompose c after Hsome) as (ab & aa & -> & Haa & _).
    replace (before +:+ String c (ab +:+ String c aa))
      with ((before +:+ String c ab) +:+ String c aa)
      by (rewrite string_app_assoc; reflexivity).
    rewrite (rfind_last c _ aa Haa), plan_string_length_app. lia.
Qed.

(** The first occurrence of [c] in a string that has one after [before]. *)
Lemma find_before (c : ascii) (before after : string) :
  0 <= find c (before +:+ String c after) <= Z.of_nat (String.length before).
Proof.
  destruct (Z.eqb_spec (find c before) (-1)) as [Hnone | Hsome].
  - rewrite (find_first c before after Hnone). lia.
  - destruct (find_decompose c before Hsome) as (bb & ba & -> & Hbb & _).
    replace ((bb +:+ String c ba) +:+ String c after)
      with (bb +:+ String c (ba +:+ String c after))
      by (rewrite string_app_assoc; reflexivity).
    rewrite (find_first c bb _ Hbb), plan_string_length_app. lia.
Qed.

(** ** Reading the plan *)

(** The test of [create_plan] holds when, and only when, the answer has
    a "[" with a "]" somewhere after it. *)
Lemma span_test (content : string) :
  (negb (find "[" content =? -1) && (rfind "]" content + 1 >? find "[" content))%bool
    = true <->
  exists x y z, content = x +:+ "[" +:+ y +:+ "]" +:+ z.
Proof.
  split.
  - intros [Hstart Hend]%andb_true_iff.
    apply negb_true_iff, Z.eqb_neq in Hstart.
    apply Z.gtb_lt in Hend.
    destruct (find_decompose _ _ Hstart) as (b1 & r1 & Hc1 & _ & Hfind).
    assert (rfind "]" content <> -1) as Hlast
      by (pose proof (find_bounds "[" content); lia).
    destruct (rfind_decompose _ _ Hlast) as (b2 & a2 & Hc2 & _ & Hrfind).
    assert (String.length b1 <> String.length b2) as Hdiffer.
    { intros Hsame. rewrite Hc2 in Hc1.
      pose proof (same_position _ _ _ _ _ _ (eq_sym Hc1) Hsame) as Hchar.
      discriminate Hchar. }
    assert (String.length b1 < String.length b2)%nat as Hlt by lia.
    rewrite Hc1 in Hc2.
    destruct (between_occurrences _ _ _ _ _ _ Hc2 Hlt) as (middle & ->).
    exists b1, middle, a2. exact Hc1.
  - intros (x & y & z & ->).
    pose proof (find_before "[" x (y +:+ "]" +:+ z)) as Hfirst.
    change (x +:+ String "[" (y +:+ "]" +:+ z))
      with (x +:+ "[" +:+ y +:+ "]" +:+ z) in Hfirst.
    pose proof (rfind_after "]" (x +:+ "[" +:+ y) z) as Hlast.
    rewrite string_app_assoc in Hlast.
    change (("[" +:+ y) +:+ String "]" z) with ("[" +:+ y +:+ "]" +:+ z) in Hlast.
    rewrite plan_string_length_app in Hlast.
    change (String.length ("[" +:+ y)) with (S (String.length y)) in Hlast.
    apply andb_true_iff. split.
    + apply negb_true_iff, Z.eqb_neq. lia.
    + apply Z.gtb_lt. lia.
Qed.

(** [create_plan] on an answer whose first "[" and last "]" enclose
    [middle]. *)
Lemma create_plan_span `{LLM} `{Json} (task : string) (self : Agent)
    (before middle after : string) :
  (llm_invoke (llm self) (planning_prompt task)).1 =
    before +:+ "[" +:+ middle +:+ "]" +:+ after ->
  find "[" before = -1 -> rfind "]" after = -1 ->
  create_plan task self =
    match json_loads ("[" +:+ middle +:+ "]") with
    | Some plan =>
        (Ok plan,
         mkAgent (llm_invoke (llm self) (planning_prompt task)).2 plan
                 (execution_log self))
    | None =>
        (Ok (_create_fallback_plan task),
         mkAgent (llm_invoke (llm self) (planning_prompt task)).2
                 (current_plan self) (execution_log self))
    end.
Proof.
  intros Hanswer Hopen Hclose.
  destruct (slice_span "[" "]" before middle after Hopen Hclose)
    as (Hfind & Hrfind & Hslice).
  change (before +:+ String "[" middle +:+ String "]" after)
    with (before +:+ "[" +:+ middle +:+ "]" +:+ after) in Hfind, Hrfind, Hslice.
  change (String "[" middle +:+ String "]" "")
    with ("[" +:+ middle +:+ "]") in Hslice.
  unfold create_plan. erewrite bind_Ok by reflexivity. cbv beta.
  rewrite Hanswer, Hslice, Hfind, Hrfind.
  destruct (Z.eqb_spec (Z.of_nat (String.length before)) (-1)) as [Hneg | _];
    [lia |].
  destruct (Z.gtb_spec
              (Z.of_nat (String.length before + String.length middle + 2))
              (Z.of_nat (String.length before))) as [_ | Hle]; [| lia].
  cbn [negb andb].
  destruct (json_loads ("[" +:+ middle +:+ "]")) as [plan|]; reflexivity.
Qed.

(** [create_plan] on an answer that has no "[" with a "]" after it. *)
Lemma create_plan_no_span `{LLM} `{Json} (task : string) (self : Agent) :
  ~ (exists x y z,
       (llm_invoke (llm self) (planning_prompt task)).1 =
         x +:+ "[" +:+ y +:+ "]" +:+ z) ->
  create_plan task self =
    (Ok (_create_fallback_plan task),
     mkAgent (llm_invoke (llm self) (planning_prompt task)).2
             (current_plan self) (execution_log self)).
Proof.
  intros Hnone. rewrite <- span_test in Hnone.
  apply not_true_is_false in Hnone.
  unfold create_plan. erewrite bind_Ok by reflexivity. cbv beta.
  rewrite Hnone. reflexivity.
Qed.

Lemma fallback_plan_complete (task : string) :
  Forall complete (_create_fallback_plan task).
Proof.
  unfold _create_fallback_plan, complete.
  repeat constructor; eexists; reflexivity.
Qed.

(** X9. [create_plan] hands [json.loads] the text from the first "[" of
    the answer to its last "]", both included, whatever stands before
    and after. The plan parsed is returned and becomes [current_plan];
    when [json.loads] raises, the fallback plan is returned and
    [current_plan] is left as it was. In both cases the model has been
    asked once and the execution log is untouched. *)
Theorem create_plan_parses_span `{LLM} `{Json} (task : string) (self : Agent)
    (before middle after : string) :
  (llm_invoke (llm self) (planning_prompt task)).1 =
    before +:+ "[" +:+ middle +:+ "]" +:+ after ->
  ~ substring_of "[" before -> ~ substring_of "]" after ->
  (forall plan,
     json_loads ("[" +:+ middle +:+ "]") = Some plan ->
     create_plan task self =
       (Ok plan,
        mkAgent (llm_invoke (llm self) (planning_prompt task)).2 plan
                (execution_log self))) /\
  (json_loads ("[" +:+ middle +:+ "]") = None ->
   create_plan task self =
     (Ok (_create_fallback_plan task),
      mkAgent (llm_invoke (llm self) (planning_prompt task)).2
              (current_plan self) (execution_log self))).
Proof.
  intros Hanswer Hopen%find_absent Hclose%rfind_absent.
  rewrite (create_plan_span task self before middle after Hanswer Hopen Hclose).
  split.
  - intros plan ->. reflexivity.
  - intros ->. reflexivity.
Qed.

Lemma create_plan_parses_span_witness :
  @create_plan scripted_LLM sample_Json "cross"
    (@init scripted_LLM ["Here you are: " +:+ two_steps_text +:+ " Good luck."]) =
    (Ok two_steps, @mkAgent scripted_LLM [] two_steps []).
Proof.
  destruct (@create_plan_parses_span scripted_LLM sample_Json "cross"
              (@init scripted_LLM
                 ["Here you are: " +:+ two_steps_text +:+ " Good luck."])
              "Here you are: "
              ("{" +:+ quoted "step_number" +:+ ": 1, "
                 +:+ quoted "description" +:+ ": " +:+ quoted "look" +:+ ", "
                 +:+ quoted "estimated_complexity" +:+ ": " +:+ quoted "low" +:+ "}, "
                 +:+ "{" +:+ quoted "step_number" +:+ ": 2, "
                 +:+ quoted "description" +:+ ": " +:+ quoted "leap" +:+ ", "
                 +:+ quoted "estimated_complexity" +:+ ": " +:+ quoted "high" +:+ "}")
              " Good luck.") as [Hparsed _].
  - vm_compute. reflexivity.
  - apply find_absent. vm_compute. reflexivity.
  - apply rfind_absent. vm_compute. reflexivity.
  - apply Hparsed. vm_compute. reflexivity.
Defined.

(** X10. When the answer has no "[" with a "]" somewhere after it,
    [create_plan] does not call [json.loads]: it returns the fallback
    plan, four steps numbered 1 to 4 that carry the three keys, the
    first of which names the task, and leaves [current_plan] and the
    execution log as they were. *)
Theorem create_plan_falls_back `{LLM} `{Json} (task : string) (self : Agent) :
  ~ (exists x y z,
       (llm_invoke (llm self) (planning_prompt task)).1 =
         x +:+ "[" +:+ y +:+ "]" +:+ z) ->
  exists plan self1,
    create_plan task self = (Ok plan, self1) /\
    plan = _create_fallback_plan task /\
    map Step.step_number plan = [Some 1; Some 2; Some 3; Some 4] /\
    Forall complete plan /\
    (exists first rest,
       plan = first :: rest /\
       Step.description first = Some ("Understand: " +:+ task)) /\
    current_plan self1 = current_plan self /\
    execution_log self1 = execution_log self /\
    llm self1 = (llm_invoke (llm self) (planning_prompt task)).2.
Proof.
  intros Hnone. do 2 eexists.
  split; [apply create_plan_no_span; exact Hnone |].
  split; [reflexivity |]. split; [reflexivity |].
  split; [apply fallback_plan_complete |].
  split; [do 2 eexists; split; reflexivity |].
  repeat split; reflexivity.
Qed.

Lemma create_plan_falls_back_witness :
  exists self1,
    @create_plan scripted_LLM sample_Json "cross"
      (@init scripted_LLM ["] no plan ["]) =
      (Ok (_create_fallback_plan "cross"), self1).
Proof.
  destruct (@create_plan_falls_back scripted_LLM sample_Json "cross"
              (@init scripted_LLM ["] no plan ["]))
    as (plan & self1 & Hcreate & -> & _).
  - rewrite <- span_test. vm_compute. discriminate.
  - exists self1. exact Hcreate.
Defined.

(** ** Complete runs *)

(** [run] on a plan that has steps, all with their keys. *)
Lemma run_returns `{PyStr} `{LLM} `{Json} `{PyFloat} (task : string)
    (self self1 : Agent) (plan : list Step.t) :
  create_plan task self = (Ok plan, self1) ->
  Forall complete plan -> plan <> [] ->
  exists (entries : list Result.t) (self' : Agent),
    let total := Z.of_nat (length (current_plan self1)) in
    let completed := Z.of_nat (length (execution_log self1) + length plan) in
    run task self =
      (Ok (FinalResult.mk task plan (execution_log self')
             (mkProgress total completed
                (if total >? 0
                 then Float (float_mul_int (int_truediv completed total) 100)
                 else Int 0)
                (total - completed))
             "completed"), self') /\
    execution_log self' = execution_log self1 ++ entries /\
    Forall2 executed plan entries /\
    current_plan self' = current_plan self1.
Proof.
  intros Hcreate Hforall Hne.
  destruct (execute_plan_log plan ("Task: " +:+ task +:+ nl +:+ nl) None self1)
    as (k & entries & r & self' & Hloop & Hlog & Hplan & Hall & Hcomplete).
  destruct (Hcomplete Hforall) as (-> & final & -> & Hsome).
  destruct (Hsome Hne) as [progress Hprogress].
  rewrite firstn_all in Hall.
  exists entries, self'. cbv zeta.
  split; [| repeat split; assumption].
  unfold run. rewrite (bind_Ok _ _ _ _ _ Hcreate).
  rewrite (announce_plan_complete plan Hforall).
  erewrite bind_Ok by reflexivity. cbv beta.
  rewrite (bind_Ok _ _ _ _ _ Hloop).
  rewrite (bind_Ok _ _ _ _ _ (monitor_progress_value self')).
  erewrite bind_Ok by reflexivity. cbv beta.
  rewrite Hprogress. unfold lift, mbind, method_bind, mret, method_ret.
  rewrite Hplan, Hlog, length_app, <- (Forall2_length _ _ _ Hall).
  reflexivity.
Qed.

(** X12. When the answer of the model holds no list, [run] executes the
    four steps of the fallback plan and returns; but [current_plan] was
    not set, so the progress it reports is counted against the plan the
    agent held before, none for a new agent: 0 steps in total, a
    percentage of 0, and a negative number of steps remaining. *)
Theorem run_on_fallback_plan `{PyStr} `{LLM} `{Json} `{PyFloat} (task : string)
    (self : Agent) :
  ~ (exists x y z,
       (llm_invoke (llm self) (planning_prompt task)).1 =
         x +:+ "[" +:+ y +:+ "]" +:+ z) ->
  exists (entries : list Result.t) (final : FinalResult.t) (self' : Agent),
    run task self = (Ok final, self') /\
    FinalResult.plan final = _create_fallback_plan task /\
    execution_log self' = execution_log self ++ entries /\
    map Result.step_number entries = [Some 1; Some 2; Some 3; Some 4] /\
    current_plan self' = current_plan self /\
    total_steps (FinalResult.progress final) =
      Z.of_nat (length (current_plan self)) /\
    completed_steps (FinalResult.progress final) =
      Z.of_nat (length (execution_log self)) + 4 /\
    (current_plan self = [] ->
     progress_percentage (FinalResult.progress final) = Int 0 /\
     remaining_steps (FinalResult.progress final) =
       - (Z.of_nat (length (execution_log self)) + 4)).
Proof.
  intros Hnone.
  pose proof (create_plan_no_span task self Hnone) as Hcreate.
  destruct (run_returns task self _ _ Hcreate (fallback_plan_complete task))
    as (entries & self' & Hrun & Hlog & Hall & Hplan); [discriminate |].
  cbv zeta in Hrun. cbn [current_plan execution_log] in Hrun, Hlog, Hplan.
  eexists entries, _, self'. split; [exact Hrun |].
  cbn [FinalResult.plan FinalResult.progress total_steps completed_steps
       progress_percentage remaining_steps].
  split; [reflexivity |]. split; [exact Hlog |].
  split.
  { unfold _create_fallback_plan in Hall.
    repeat match goal with
           | Hsteps : Forall2 executed (_ :: _) _ |- _ =>
               apply Forall2_cons_inv_l in Hsteps
                 as (? & ? & (? & _) & Hsteps & ->)
           | Hsteps : Forall2 executed [] _ |- _ =>
               apply Forall2_nil_inv_l in Hsteps as ->
           end.
    cbn [map]. repeat f_equal; assumption. }
  change (length (_create_fallback_plan task)) with 4%nat.
  split; [exact Hplan |]. split; [reflexivity |].
  split; [lia |].
  intros ->. cbn [length]. split; [reflexivity | lia].
Qed.

Lemma run_on_fallback_plan_witness :
  exists final self',
    @run ascii_PyStr scripted_LLM sample_Json exact_PyFloat "cross"
      (@init scripted_LLM ["no plan, sorry"]) = (Ok final, self') /\
    @progress_percentage exact_PyFloat (FinalResult.progress final) =
      @Int exact_PyFloat 0 /\
    @remaining_steps exact_PyFloat (FinalResult.progress final) = -4.
Proof.
  destruct (@run_on_fallback_plan ascii_PyStr scripted_LLM sample_Json
              exact_PyFloat "cross" (@init scripted_LLM ["no plan, sorry"]))
    as (entries & final & self' & Hrun & _ & _ & _ & _ & _ & _ & Hfresh).
  - rewrite <- span_test. vm_compute. discriminate.
  - exists final, self'. split; [exact Hrun |]. apply Hfresh. reflexivity.
Defined.

(** X13. [run] neither empties the execution log nor counts from where
    it stood: with a plan parsed from the answer, the progress it
    returns counts every entry of the log as completed, those of earlier
    runs too, so that the number of steps remaining is minus the number
    of entries the log held before the run. *)
Theorem run_counts_earlier_entries `{PyStr} `{LLM} `{Json} `{PyFloat}
    (task : string) (self self1 : Agent) (plan : list Step.t) :
  create_plan task self = (Ok plan, self1) ->
  current_plan self1 = plan ->
  Forall complete plan -> plan <> [] ->
  exists (final : FinalResult.t) (self' : Agent),
    run task self = (Ok final, self') /\
    length (FinalResult.execution_log final) =
      (length (execution_log self) + length plan)%nat /\
    total_steps (FinalResult.progress final) = Z.of_nat (length plan) /\
    completed_steps (FinalResult.progress final) =
      Z.of_nat (length (execution_log self)) + Z.of_nat (length plan) /\
    remaining_steps (FinalResult.progress final) =
      - Z.of_nat (length (execution_log self)).
Proof.
  intros Hcreate Hcurrent Hforall Hne.
  destruct (create_plan_returns task self) as (plan0 & self0 & Hcreate0 & Hlog0).
  rewrite Hcreate in Hcreate0. injection Hcreate0 as <- <-.
  destruct (run_returns task self self1 plan Hcreate Hforall Hne)
    as (entries & self' & Hrun & Hlog & Hall & _).
  cbv zeta in Hrun. rewrite Hcurrent, Hlog0 in Hrun.
  eexists _, self'. split; [exact Hrun |].
  cbn [FinalResult.execution_log FinalResult.progress total_steps
       completed_steps remaining_steps].
  rewrite Hlog, Hlog0, length_app, <- (Forall2_length _ _ _ Hall).
  repeat split; lia.
Qed.

Lemma run_counts_earlier_entries_witness :
  exists final self',
    @run ascii_PyStr scripted_LLM sample_Json exact_PyFloat "cross"
      (@mkAgent scripted_LLM [two_steps_text; "went well"; "went well"] []
         [Result.mk (Some 7) (Some "earlier") (Some "done") (Some "completed")
            (Some "now")]) = (Ok final, self') /\
    @remaining_steps exact_PyFloat (FinalResult.progress final) = -1.
Proof.
  destruct (@run_counts_earlier_entries ascii_PyStr scripted_LLM sample_Json
              exact_PyFloat "cross"
              (@mkAgent scripted_LLM [two_steps_text; "went well"; "went well"] []
                 [Result.mk (Some 7) (Some "earlier") (Some "done")
                    (Some "completed") (Some "now")])
              (@mkAgent scripted_LLM ["went well"; "went well"] two_steps
                 [Result.mk (Some 7) (Some "earlier") (Some "done")
                    (Some "completed") (Some "now")])
              two_steps)
    as (final & self' & Hrun & _ & _ & _ & Hremaining).
  - vm_compute. reflexivity.
  - reflexivity.
  - repeat constructor; eexists; reflexivity.
  - discriminate.
  - exists final, self'. split; [exact Hrun | exact Hremaining].
Defined.

(** X14. When the list the model sent parses to the empty plan, [run]
    executes nothing and then raises [UnboundLocalError]: the line that
    prints the success rate reads [progress], a variable that only the
    body of the loop over the steps assigns. *)
Theorem run_raises_on_empty_plan `{PyStr} `{LLM} `{Json} `{PyFloat}
    (task : string) (self : Agent) (before middle after : string) :
  (llm_invoke (llm self) (planning_prompt task)).1 =
    before +:+ "[" +:+ middle +:+ "]" +:+ after ->
  ~ substring_of "[" before -> ~ substring_of "]" after ->
  json_loads ("[" +:+ middle +:+ "]") = Some [] ->
  run task self =
    (Raise (UnboundLocalError "progress"),
     mkAgent (llm_invoke (llm self) (planning_prompt task)).2 []
             (execution_log self)).
Proof.
  intros Hanswer Hopen%find_absent Hclose%rfind_absent Hempty.
  apply run_empty_plan.
  rewrite (create_plan_span task self before middle after Hanswer Hopen Hclose).
  rewrite Hempty. reflexivity.
Qed.

Lemma run_raises_on_empty_plan_witness :
  @run ascii_PyStr scripted_LLM sample_Json exact_PyFloat "cross"
    (@init scripted_LLM ["Nothing to do: []"]) =
    (Raise (UnboundLocalError "progress"), @mkAgent scripted_LLM [] [] []).
Proof.
  apply (@run_raises_on_empty_plan ascii_PyStr scripted_LLM sample_Json
           exact_PyFloat "cross" (@init scripted_LLM ["Nothing to do: []"])
           "Nothing to do: " "" "").
  - vm_compute. reflexivity.
  - apply find_absent. vm_compute. reflexivity.
  - apply rfind_absent. vm_compute. reflexivity.
  - vm_compute. reflexivity.
Defined.

(** ** Runs that stop on a step *)

Lemma announce_plan_printable (plan : list Step.t) :
  Forall printable plan -> announce_plan plan = Ok tt.
Proof.
  induction 1 as [|step rest ([n Hn] & [d Hd]) _ IH]; [reflexivity |].
  cbn [announce_plan]. rewrite Hn, Hd. exact IH.
Qed.

Lemma complete_printable (step : Step.t) : complete step -> printable step.
Proof. intros (Hn & Hd & _). split; assumption. Qed.

(** The loop up to a step without [estimated_complexity]. *)
Lemma execute_plan_stops `{PyStr} `{LLM} `{PyFloat} (done : list Step.t)
    (bad : Step.t) (rest : list Step.t) :
  Forall complete done -> printable bad ->
  Step.estimated_complexity bad = None ->
  forall (context : string) (progress : option Progress) (self : Agent),
  exists (entries : list Result.t) (self' : Agent),
    execute_plan (done ++ bad :: rest) context progress self =
      (Raise (KeyError "estimated_complexity"), self') /\
    execution_log self' = execution_log self ++ entries /\
    Forall2 executed done entries /\
    current_plan self' = current_plan self.
Proof.
  intros Hdone ([n Hn] & [d Hd]) Hc.
  induction Hdone as [|step done Hstep _ IH]; intros context progress self.
  - exists [], self. cbn [app execute_plan].
    split.
    + apply bind_Raise. unfold execute_step. rewrite Hn, Hd, Hc. reflexivity.
    + split; [symmetry; apply app_nil_r |]. split; [constructor | reflexivity].
  - destruct (execute_step_complete step context self Hstep)
      as (result & self1 & Hexec & Hexecuted & Hlog1 & Hplan1).
    destruct (monitor_progress_unchanged self1) as [progress1 Hmonitor].
    pose proof Hstep as ([m Hm] & _).
    pose proof Hexecuted as (_ & _ & [out Hout] & _).
    destruct (IH (context +:+ "Step " +:+ pretty m +:+ ": "
                    +:+ take_chars 200 out +:+ "..." +:+ nl +:+ nl)
                 (Some progress1) self1)
      as (entries & self' & Hrest & Hlog & Hall & Hplan).
    exists (result :: entries), self'. split.
    { cbn [app execute_plan].
      rewrite (bind_Ok _ _ _ _ _ Hexec). rewrite Hm, Hout.
      erewrite bind_Ok by reflexivity. cbv beta.
      erewrite bind_Ok by reflexivity. cbv beta.
      rewrite (bind_Ok _ _ _ _ _ Hmonitor).
      destruct (should_replan result);
        (erewrite bind_Ok by reflexivity); exact Hrest. }
    split; [rewrite Hlog, Hlog1, <- app_assoc; reflexivity |].
    split; [constructor; assumption |].
    rewrite Hplan, Hplan1. reflexivity.
Qed.

(** X15. A run that meets a step without [estimated_complexity] is not
    undone: when the steps before it carry their three keys, with an
    integer for [step_number] and strings for the other two, and every
    step has its [step_number] and [description], [run] executes the
    steps before it, in order, then raises [KeyError] on the key and
    stops; the entries of the steps executed stay in the log, and no
    later step is executed. *)
Theorem run_stops_at_incomplete_step `{PyStr} `{LLM} `{Json} `{PyFloat}
    (task : string) (self self1 : Agent) (done : list Step.t) (bad : Step.t)
    (rest : list Step.t) :
  create_plan task self = (Ok (done ++ bad :: rest), self1) ->
  Forall complete done -> printable bad -> Forall printable rest ->
  Step.estimated_complexity bad = None ->
  exists (entries : list Result.t) (self' : Agent),
    run task self = (Raise (KeyError "estimated_complexity"), self') /\
    execution_log self' = execution_log self ++ entries /\
    Forall2 executed done entries /\
    length entries = length done.
Proof.
  intros Hcreate Hdone Hbad Hrest Hc.
  destruct (create_plan_returns task self) as (plan0 & self0 & Hcreate0 & Hlog0).
  rewrite Hcreate in Hcreate0. injection Hcreate0 as <- <-.
  destruct (execute_plan_stops done bad rest Hdone Hbad Hc
              ("Task: " +:+ task +:+ nl +:+ nl) None self1)
    as (entries & self' & Hloop & Hlog & Hall & _).
  exists entries, self'. split.
  - unfold run. rewrite (bind_Ok _ _ _ _ _ Hcreate).
    rewrite announce_plan_printable.
    + erewrite bind_Ok by reflexivity. cbv beta.
      apply (bind_Raise _ _ _ _ _ Hloop).
    + apply Forall_app. split.
      * eapply Forall_impl; [exact Hdone | exact complete_printable].
      * constructor; assumption.
  - split; [rewrite Hlog, Hlog0; reflexivity |].
    split; [exact Hall | symmetry; exact (Forall2_length _ _ _ Hall)].
Qed.

(** The model sends three steps, the second without
    [estimated_complexity]: the first is executed and logged, the run
    raises on the second, and the third is not executed. *)
Lemma run_stops_at_incomplete_step_witness :
  exists entries self',
    @run ascii_PyStr scripted_LLM halting_Json exact_PyFloat "cross"
      (@init scripted_LLM ["Plan: " +:+ halting_plan_text; "looked"; "unused"]) =
      (Raise (KeyError "estimated_complexity"), self') /\
    @execution_log scripted_LLM self' = [] ++ entries /\
    Forall2 executed [Step.mk (Some 1) (Some "look") (Some "low")] entries /\
    length entries = 1%nat.
Proof.
  apply (@run_stops_at_incomplete_step ascii_PyStr scripted_LLM halting_Json
           exact_PyFloat "cross"
           (@init scripted_LLM ["Plan: " +:+ halting_plan_text; "looked"; "unused"])
           (@mkAgent scripted_LLM ["looked"; "unused"] halting_plan [])
           [Step.mk (Some 1) (Some "look") (Some "low")]
           (Step.mk (Some 2) (Some "leap") None)
           [Step.mk (Some 3) (Some "land") (Some "low")]).
  - vm_compute. reflexivity.
  - repeat constructor; eexists; reflexivity.
  - split; eexists; reflexivity.
  - repeat constructor; eexists; reflexivity.
  - reflexivity.
Defined.

(** ** The tool functions *)

Lemma research_topic_loop_first `{PyStr} (topic : string)
    (before : list (string * string)) (key finding : string)
    (after : list (string * string)) :
  contains key (lower topic) = true ->
  (forall entry, entry ∈ before -> contains entry.1 (lower topic) = false) ->
  research_topic_loop (before ++ (key, finding) :: after) topic = Some finding.
Proof.
  intros Hkey. induction before as [|[k f] before IH]; intros Hbefore.
  - cbn [app research_topic_loop]. rewrite Hkey. reflexivity.
  - cbn [app research_topic_loop].
    pose proof (Hbefore (k, f)) as Hk. cbn [fst] in Hk.
    rewrite Hk by (apply elem_of_cons; left; reflexivity).
    apply IH. intros entry Hin. apply Hbefore, elem_of_cons. right. exact Hin.
Qed.

Lemma research_topic_loop_none `{PyStr} (topic : string)
    (kb : list (string * string)) :
  (forall entry, entry ∈ kb -> contains entry.1 (lower topic) = false) ->
  research_topic_loop kb topic = None.
Proof.
  induction kb as [|[k f] kb IH]; intros Hkb; [reflexivity |].
  cbn [research_topic_loop].
  pose proof (Hkb (k, f)) as Hk. cbn [fst] in Hk.
  rewrite Hk by (apply elem_of_cons; left; reflexivity).
  apply IH. intros entry Hin. apply Hkb, elem_of_cons. right. exact Hin.
Qed.

(** X16. [research_topic] answers with the entry of the first key of
    its dictionary, in the order of the dictionary, that occurs in the
    lowered topic, and with the topic as it was given, after a fixed
    text, when none occurs. *)
Theorem research_topic_first_match `{PyStr} (topic : string) :
  (forall (before : list (string * string)) (key finding : string)
          (after : list (string * string)),
     knowledge = before ++ (key, finding) :: after ->
     substring_of key (lower topic) ->
     (forall entry, entry ∈ before -> ~ substring_of entry.1 (lower topic)) ->
     research_topic topic = finding) /\
  ((forall entry, entry ∈ knowledge -> ~ substring_of entry.1 (lower topic)) ->
   research_topic topic = "Research findings on " +:+ topic).
Proof.
  unfold research_topic. split.
  - intros before key finding after -> Hkey%contains_spec Hbefore.
    rewrite (research_topic_loop_first topic before key finding after Hkey);
      [reflexivity |].
    intros entry Hin. apply contains_false, Hbefore, Hin.
  - intros Hnone. rewrite research_topic_loop_none; [reflexivity |].
    intros entry Hin. apply contains_false, Hnone, Hin.
Qed.

Lemma research_topic_first_match_witness :
  @research_topic ascii_PyStr "Tides" = "Research findings on Tides".
Proof.
  apply (@research_topic_first_match ascii_PyStr "Tides").
  intros entry Hin. apply contains_false.
  unfold knowledge in Hin.
  repeat (apply elem_of_cons in Hin as [-> | Hin]; [vm_compute; reflexivity |]).
  apply elem_of_nil in Hin. contradiction.
Defined.

Lemma string_app_inv (x y a b : string) :
  String.length x = String.length y -> x +:+ a = y +:+ b -> x = y /\ a = b.
Proof.
  revert y. induction x as [|c x IH]; intros [|d y] Hlen Heq;
    try discriminate Hlen.
  - split; [reflexivity | exact Heq].
  - injection Hlen as Hlen. injection Heq as -> Heq.
    destruct (IH y Hlen Heq) as [-> ->]. split; reflexivity.
Qed.

(** X17. [generate_report] tells the length of its content and nothing
    else of it: two contents receive the same report when, and only
    when, they have the same number of characters, counted as Python
    counts them. *)
Theorem generate_report_tells_length (content content' : string) :
  generate_report content = generate_report content' <->
  str_len content = str_len content'.
Proof.
  unfold generate_report. split.
  - intros Heq. apply (inj (String.app "Report generated with ")) in Heq.
    assert (String.length (pretty (Z.of_nat (str_len content))) =
            String.length (pretty (Z.of_nat (str_len content')))) as Hlen.
    { apply (f_equal String.length) in Heq.
      rewrite !plan_string_length_app in Heq. lia. }
    destruct (string_app_inv _ _ _ _ Hlen Heq) as [Hpretty _].
    apply (inj pretty) in Hpretty. lia.
  - intros ->. reflexivity.
Qed.

Lemma generate_report_tells_length_witness :
  generate_report "é" = generate_report "a" /\
  generate_report "é" <> generate_report "ab".
Proof.
  split.
  - apply (generate_report_tells_length "é" "a"). vm_compute. reflexivity.
  - intros Heq. apply (generate_report_tells_length "é" "ab") in Heq.
    vm_compute in Heq. discriminate Heq.
Defined.

End PlanAndExecuteFurther.
